(** * Telepresence client: daemon session lifecycle and configuration resolution

    A shallow embedding of the Go sources

      - pkg/client/k8s_config.go            (module [client])
      - pkg/client/cli/daemon/identifier.go (module [daemon])
      - pkg/client/cli/daemon/request.go    (module [daemon])
      - pkg/client/cli/connect/daemon.go    (module [connect])

    followed by the properties of the specification that concern them.

    Conventions.  A Go pointer [*T] is [ptr T] (an option, [None] is nil).
    A Go [map[string]string] is a [gmap string string].  A function
    returning [(T, error)] returns a [result T]; a function returning only
    [error] returns [option error] ([None] is the nil error).  A method with
    a pointer receiver that assigns to its receiver returns the updated
    receiver next to its Go result.  Calls that reach the operating system
    or another process are nodes of a program tree ([connect.prog]) that is
    run against an arbitrary handler. *)

From stdpp Require Import gmap strings list fin_maps pretty.

Open Scope string_scope.
Open Scope list_scope.

Abbreviation ptr A := (option A) (only parsing).

(** ** Errors *)

(** Modelled from the spec: package pkg/errcat is not among the sources.
    Section 7 of the specification names the classifications an error can
    carry; the sources use [errcat.User], [errcat.Config] and
    [errcat.NoDaemonLogs]. *)
Inductive Category : Type :=
| User
| Config
| NoDaemonLogs.

(** The error values that the modelled functions create or pass on.
    [fmt_Errorf] keeps the format and its string arguments apart instead of
    rendering them; [fmt_Errorf_w] is a format that ends its argument list
    with an error formatted by the wrapping verb. *)
Inductive error : Type :=
| ErrNoUserDaemon
| errors_New (text : string)
| fmt_Errorf (format : string) (args : list string)
| fmt_Errorf_w (format : string) (args : list string) (wrapped : error)
| categorized (c : Category) (e : error)
| syntax_Error (code expr : string)
| fs_PathError (op path : string) (notExist : bool)
| foreign (origin text : string).

Inductive result (A : Type) : Type :=
| Ok (a : A)
| Err (e : error).
Arguments Ok {A} a.
Arguments Err {A} e.

Module errors.

(** [errors.Unwrap]. *)
Definition Unwrap (e : error) : option error :=
  match e with
  | fmt_Errorf_w _ _ w => Some w
  | categorized _ e' => Some e'
  | _ => None
  end.

(** [errors.Is(err, ErrNoUserDaemon)]: the sentinel is compared by
    identity along the chain of wrapped errors; a nil [err] is not it. *)
Fixpoint wraps_ErrNoUserDaemon (e : error) : bool :=
  match e with
  | ErrNoUserDaemon => true
  | fmt_Errorf_w _ _ w => wraps_ErrNoUserDaemon w
  | categorized _ e' => wraps_ErrNoUserDaemon e'
  | _ => false
  end.

Definition Is_ErrNoUserDaemon (err : option error) : bool :=
  match err with
  | None => false
  | Some e => wraps_ErrNoUserDaemon e
  end.

End errors.

Module errcat.

(** Modelled from the spec: pkg/errcat is not among the sources.
    [errcat.<C>.New(text)] and [errcat.<C>.Newf(format, args...)] attach
    classification [C] to the error they build. *)
Definition New (c : Category) (text : string) : error :=
  categorized c (errors_New text).

Definition Newf (c : Category) (format : string) (args : list string) : error :=
  categorized c (fmt_Errorf format args).

Definition Newf_w (c : Category) (format : string) (args : list string)
    (wrapped : error) : error :=
  categorized c (fmt_Errorf_w format args wrapped).

(** Modelled from the spec: the classification an error carries is the
    one attached nearest to the outside of its chain of wrapped errors;
    an error built without any carries none. *)
Fixpoint GetCategory (e : error) : option Category :=
  match e with
  | categorized c _ => Some c
  | fmt_Errorf_w _ _ w => GetCategory w
  | _ => None
  end.

(** The "InvalidConfig" classification of the specification: a user or
    configuration error. *)
Definition InvalidConfig (e : error) : Prop :=
  GetCategory e = Some User \/ GetCategory e = Some Config.

End errcat.

(** ** rpc/v2/daemon: the generated message type used by k8s_config.go *)

Module rpc.

(** Modelled from the spec: the generated package rpc/v2/daemon is not
    among the sources.  A DNS mapping message has the two string fields
    the client reads, next to the bookkeeping of the protobuf runtime
    (bytes of fields unknown to this version of the schema). *)
Record DNSMapping : Type := {
  Name : string;
  AliasFor : string;
  unknownFields : list Byte.byte
}.

End rpc.

(** ** pkg/client/k8s_config.go *)

Module client.

Record DNSMapping : Type := {
  Name : string;
  AliasFor : string
}.

(** [type DNSMappings []*DNSMapping] *)
Abbreviation DNSMappings := (list (ptr DNSMapping)) (only parsing).

(** The loop of [FromRPC]: [d] is the slice built so far, [rest] the
    elements still to visit.  Reading a field through a nil element
    panics ([None]). *)
Fixpoint FromRPC_loop (d : DNSMappings) (rest : list (ptr rpc.DNSMapping))
    : option DNSMappings :=
  match rest with
  | [] => Some d
  | p :: rest' =>
      m ← p;
      FromRPC_loop
        (d ++ [Some {| Name := rpc.Name m; AliasFor := rpc.AliasFor m |}])
        rest'
  end.

Definition FromRPC (rpcMappings : list (ptr rpc.DNSMapping)) : option DNSMappings :=
  FromRPC_loop [] rpcMappings.

Fixpoint ToRPC_loop (rpcMappings : list (ptr rpc.DNSMapping)) (rest : DNSMappings)
    : option (list (ptr rpc.DNSMapping)) :=
  match rest with
  | [] => Some rpcMappings
  | p :: rest' =>
      m ← p;
      ToRPC_loop
        (rpcMappings ++
           [Some {| rpc.Name := Name m; rpc.AliasFor := AliasFor m;
                    rpc.unknownFields := [] |}])
        rest'
  end.

Definition ToRPC (d : DNSMappings) : option (list (ptr rpc.DNSMapping)) :=
  ToRPC_loop [] d.

(** [iputil.IPKey] is a string type holding the bytes of an address;
    [iputil.IPKey(ip)] keeps the bytes of [ip]. *)
Abbreviation IPKey := string (only parsing).

(** [iputil.Subnet] is a [net.IPNet]. *)
Record Subnet : Type := {
  IP : string;
  Mask : string
}.

Record DnsConfig : Type := {
  LocalIP : IPKey;
  RemoteIP : IPKey;
  ExcludeSuffixes : list string;
  IncludeSuffixes : list string;
  Excludes : list string;
  Mappings : DNSMappings;
  (** [v1.Duration], a [time.Duration] counted in nanoseconds *)
  LookupTimeout : Z
}.

(** The zero value [DnsConfig{}]. *)
Definition DnsConfig_zero : DnsConfig :=
  {| LocalIP := ""; RemoteIP := ""; ExcludeSuffixes := [];
     IncludeSuffixes := []; Excludes := []; Mappings := [];
     LookupTimeout := 0 |}.

Record ManagerConfig : Type := {
  mc_Namespace : string
}.

Record KubeconfigExtension : Type := {
  DNS : ptr DnsConfig;
  AlsoProxy : list (ptr Subnet);
  NeverProxy : list (ptr Subnet);
  Manager : ptr ManagerConfig
}.

Definition KubeconfigExtension_zero : KubeconfigExtension :=
  {| DNS := None; AlsoProxy := []; NeverProxy := []; Manager := None |}.

(** Modelled from the spec: the types [DNS] and [Routing] of the client
    configuration (pkg/client/config.go) are not among the sources.  The
    remote override payload is a document with the keys [dns] and
    [routing], shaped as [localIP], [remoteIP], [excludeSuffixes],
    [includeSuffixes], [excludes], [mappings], [lookupTimeout] and
    [alsoProxy], [neverProxy]. *)
Module cfg.

Record DNS : Type := {
  LocalIP : string;
  RemoteIP : string;
  ExcludeSuffixes : list string;
  IncludeSuffixes : list string;
  Excludes : list string;
  Mappings : DNSMappings;
  LookupTimeout : Z
}.

Record Routing : Type := {
  AlsoProxy : list (ptr Subnet);
  NeverProxy : list (ptr Subnet)
}.

End cfg.

(** The anonymous struct [remote] of [AddRemoteKubeConfigExtension]. *)
Record remote_config : Type := {
  remote_DNS : ptr cfg.DNS;
  remote_Routing : ptr cfg.Routing
}.

(** k8s.io/client-go/tools/clientcmd/api, as far as it is read. *)
Module api.

(** [runtime.Object]: either a [*runtime.Unknown] with its raw bytes or
    some other object. *)
Inductive Object : Type :=
| Unknown (Raw : string)
| other_Object.

Record Context : Type := {
  Cluster : string
}.

Record Cluster_ : Type := {
  Server : string;
  Extensions : gmap string Object
}.

Record Config : Type := {
  Contexts : gmap string Context;
  Clusters : gmap string Cluster_;
  CurrentContext : string
}.

End api.

Record rest_Config : Type := {
  Host : string
}.

(** [clientcmd.ClientConfig]: what the three calls made on the loader
    answer. *)
Record ClientConfig : Type := {
  RawConfig : result api.Config;
  loader_Namespace : result (string * bool);
  loader_ClientConfig : result rest_Config
}.

(** [genericclioptions.ConfigFlags], by the loader it hands out. *)
Record ConfigFlags_ : Type := {
  ToRawKubeConfigLoader : ClientConfig
}.

Record Kubeconfig : Type := {
  Extension : KubeconfigExtension;
  Namespace : string;
  Context : string;
  Server : string;
  FlagMap : gmap string string;
  ConfigFlags : ConfigFlags_;
  RestConfig : ptr rest_Config
}.

(** What [GetEnv(c)] and [GetConfig(c)] find in the context [c]. *)
Record Env : Type := {
  ManagerNamespace : string;
  UserDaemonAddress : string
}.

Record Cluster : Type := {
  DefaultManagerNamespace : string
}.

Record context : Type := {
  GetEnv : Env;
  GetConfig_Cluster : Cluster
}.

Definition configExtension : string := "telepresence.io".

(** Indexing a Go map of strings: a missing key reads as the empty
    string. *)
Definition index (m : gmap string string) (k : string) : string :=
  default "" (m !! k).

Definition bind_result {A B : Type} (r : result A) (f : A -> result B) : result B :=
  match r with
  | Ok a => f a
  | Err e => Err e
  end.

Notation "x <-? r ; k" := (bind_result r (fun x => k))
  (at level 100, r at next level, right associativity,
   format "'[v' x  <-?  r ; '/' k ']'").

Section k8s_config.

(** [json.Unmarshal] into a zero [KubeconfigExtension] and
    [yaml.Unmarshal] into a zero [remote] struct. *)
Variable json_Unmarshal : string -> result KubeconfigExtension.
Variable yaml_Unmarshal : string -> result remote_config.

Definition with_Extension (k : Kubeconfig) (e : KubeconfigExtension) : Kubeconfig :=
  {| Extension := e; Namespace := Namespace k; Context := Context k;
     Server := Server k; FlagMap := FlagMap k; ConfigFlags := ConfigFlags k;
     RestConfig := RestConfig k |}.

Definition with_Manager (e : KubeconfigExtension) (m : ptr ManagerConfig)
    : KubeconfigExtension :=
  {| DNS := DNS e; AlsoProxy := AlsoProxy e; NeverProxy := NeverProxy e;
     Manager := m |}.

Definition newKubeconfig (c : context) (flagMap : gmap string string)
    (managerNamespaceOverride : string) (configFlags : ConfigFlags_)
    : result Kubeconfig :=
  let configLoader := ToRawKubeConfigLoader configFlags in
  config <-? RawConfig configLoader;
  if bool_decide (size (api.Contexts config) = 0) then
    Err (errcat.New Config "kubeconfig has no context definition")
  else
  ns <-? loader_Namespace configLoader;
  let namespace := ns.1 in
  let ctxName := index flagMap "context" in
  let ctxName :=
    if bool_decide (ctxName = "") then api.CurrentContext config else ctxName in
  match api.Contexts config !! ctxName with
  | None =>
      Err (errcat.Newf Config "context %q does not exist in the kubeconfig" [ctxName])
  | Some ctx =>
  match api.Clusters config !! api.Cluster ctx with
  | None =>
      Err (errcat.Newf Config
             "the cluster %q declared in context %q does exists in the kubeconfig"
             [api.Cluster ctx; ctxName])
  | Some cluster =>
  restConfig <-? loader_ClientConfig configLoader;
  let k :=
    {| Extension := KubeconfigExtension_zero;
       Context := ctxName;
       Server := api.Server cluster;
       Namespace := namespace;
       FlagMap := flagMap;
       ConfigFlags := configFlags;
       RestConfig := Some restConfig |} in
  k <-? match api.Extensions cluster !! configExtension with
        | Some (api.Unknown raw) =>
            match json_Unmarshal raw with
            | Ok e => Ok (with_Extension k e)
            | Err err =>
                Err (errcat.Newf_w Config
                       "unable to parse extension %s in kubeconfig: %w"
                       [configExtension] err)
            end
        | _ => Ok k
        end;
  let manager :=
    match Manager (Extension k) with
    | None => {| mc_Namespace := "" |}
    | Some m => m
    end in
  let manager :=
    if bool_decide (managerNamespaceOverride ≠ "")
    then {| mc_Namespace := managerNamespaceOverride |} else manager in
  let manager :=
    if bool_decide (mc_Namespace manager = "")
    then {| mc_Namespace := ManagerNamespace (GetEnv c) |} else manager in
  let manager :=
    if bool_decide (mc_Namespace manager = "")
    then {| mc_Namespace := DefaultManagerNamespace (GetConfig_Cluster c) |}
    else manager in
  Ok (with_Extension k (with_Manager (Extension k) (Some manager)))
  end end.

Definition GetManagerNamespace (kf : Kubeconfig) : option string :=
  m ← Manager (Extension kf); Some (mc_Namespace m).

(** The assignments to [kf.DNS] made for a non-nil [remote.DNS]. *)
Definition merge_DNS (local : DnsConfig) (dns : cfg.DNS) : DnsConfig :=
  {| LocalIP :=
       if bool_decide (LocalIP local = "") then cfg.LocalIP dns else LocalIP local;
     RemoteIP :=
       if bool_decide (RemoteIP local = "") then cfg.RemoteIP dns else RemoteIP local;
     ExcludeSuffixes := ExcludeSuffixes local ++ cfg.ExcludeSuffixes dns;
     IncludeSuffixes := IncludeSuffixes local ++ cfg.IncludeSuffixes dns;
     Excludes := Excludes local ++ cfg.Excludes dns;
     Mappings := Mappings local ++ cfg.Mappings dns;
     LookupTimeout :=
       if bool_decide (LookupTimeout local = 0%Z)
       then cfg.LookupTimeout dns else LookupTimeout local |}.

(** The method assigns through its receiver: the second component is
    the receiver after the call.  The debug log line is left out. *)
Definition AddRemoteKubeConfigExtension (kf : Kubeconfig) (cfgYaml : string)
    : option error * Kubeconfig :=
  match yaml_Unmarshal cfgYaml with
  | Err err =>
      (Some (fmt_Errorf_w "unable to parse remote kubeconfig: %w" [] err), kf)
  | Ok remote =>
      let ext := Extension kf in
      let kf_DNS :=
        match DNS ext with
        | None => DnsConfig_zero
        | Some d => d
        end in
      let kf_DNS :=
        match remote_DNS remote with
        | Some dns => merge_DNS kf_DNS dns
        | None => kf_DNS
        end in
      let '(also, never) :=
        match remote_Routing remote with
        | Some routing =>
            (AlsoProxy ext ++ cfg.AlsoProxy routing,
             NeverProxy ext ++ cfg.NeverProxy routing)
        | None => (AlsoProxy ext, NeverProxy ext)
        end in
      (None,
       with_Extension kf
         {| DNS := Some kf_DNS; AlsoProxy := also; NeverProxy := never;
            Manager := Manager ext |})
  end.

End k8s_config.

End client.

(** ** Libraries used by pkg/client/cli/daemon *)

Module strconv.

(** [strconv.ParseBool]: the accepted spellings, and [None] for the
    syntax error returned next to [false] on any other text. *)
Definition ParseBool (str : string) : option bool :=
  if bool_decide (str ∈ ["1"; "t"; "T"; "TRUE"; "true"; "True"]) then Some true
  else if bool_decide (str ∈ ["0"; "f"; "F"; "FALSE"; "false"; "False"]) then Some false
  else None.

End strconv.

Module regexp.

(** A compiled expression, by the source text it was compiled from
    ([Regexp.String]). *)
Record Regexp : Type := {
  expr : string
}.

Section Compile.

(** The parser of regexp/syntax: [None] when it accepts the pattern,
    the code and the offending part of the expression when it
    rejects it. *)
Variable syntax_Parse : string -> option (string * string).

Definition Compile (str : string) : result Regexp :=
  match syntax_Parse str with
  | None => Ok {| expr := str |}
  | Some (code, bad) => Err (syntax_Error code bad)
  end.

End Compile.

End regexp.

Module pflag.

(** [pflag.Value]: every value renders itself with [String]; a value
    that also implements [pflag.SliceValue] answers [GetSlice]. *)
Record Value_ : Type := {
  String : string;
  GetSlice : option (list string)
}.

Record Flag : Type := {
  Name : string;
  Value : Value_;
  Changed : bool
}.

(** A flag set, as the sequence of flags that [VisitAll] visits. *)
Abbreviation FlagSet := (list Flag) (only parsing).

Definition VisitAll {S : Type} (f : FlagSet) (fn : S -> Flag -> S) (s : S) : S :=
  foldl fn s f.

End pflag.

Module global.

(** Modelled from the spec: package pkg/client/cli/global is not among
    the sources.  The global flags are [--context], [--docker] and
    [--use]. *)
Definition FlagContext : string := "context".
Definition FlagDocker : string := "docker".
Definition FlagUse : string := "use".

End global.

Module connector.

(** Modelled from the spec: the generated package rpc/v2/connector is
    not among the sources.  The connection request carries a name, the
    mapped namespaces, the CIDR lists to proxy and never to proxy, the
    manager namespace override, the map of changed kubectl flags and the
    map of environment variables to set or (key prefixed with a dash) to
    unset. *)
Record ConnectRequest : Type := {
  KubeFlags : gmap string string;
  Environment : gmap string string;
  Name : string;
  MappedNamespaces : list string;
  AlsoProxy : list string;
  NeverProxy : list string;
  ManagerNamespace : string;
  IsPodDaemon : bool
}.

Definition with_KubeFlags (r : ConnectRequest) (m : gmap string string) : ConnectRequest :=
  {| KubeFlags := m; Environment := Environment r; Name := Name r;
     MappedNamespaces := MappedNamespaces r; AlsoProxy := AlsoProxy r;
     NeverProxy := NeverProxy r; ManagerNamespace := ManagerNamespace r;
     IsPodDaemon := IsPodDaemon r |}.

Definition with_Environment (r : ConnectRequest) (m : gmap string string) : ConnectRequest :=
  {| KubeFlags := KubeFlags r; Environment := m; Name := Name r;
     MappedNamespaces := MappedNamespaces r; AlsoProxy := AlsoProxy r;
     NeverProxy := NeverProxy r; ManagerNamespace := ManagerNamespace r;
     IsPodDaemon := IsPodDaemon r |}.

End connector.

(** ** pkg/client/k8s_config.go: loading the configuration *)

Module os.

Import Stdlib.Strings.Ascii.

Fixpoint has_byte (b : Ascii.ascii) (s : string) : bool :=
  match s with
  | EmptyString => false
  | String c rest => if bool_decide (c = b) then true else has_byte b rest
  end.

(** [os.Setenv] refuses an empty key, a key that holds an equals sign or a
    zero byte, and a value that holds a zero byte; the environment is then
    left as it is. *)
Definition Setenv (key value : string) (environ : gmap string string)
    : option error * gmap string string :=
  if bool_decide (key = "") || has_byte "="%char key || has_byte Ascii.zero key
     || has_byte Ascii.zero value
  then (Some (foreign "syscall" "invalid argument"), environ)
  else (None, <[key := value]> environ).

Definition Unsetenv (key : string) (environ : gmap string string)
    : option error * gmap string string :=
  (None, delete key environ).

End os.

Module kube.

Import Stdlib.Strings.Ascii.
Import client.

(** The pieces of pflag, encoding/csv and genericclioptions that the
    loading functions call.  [flag_values] is what the flags added by a
    [genericclioptions.ConfigFlags] hold; [flags_Lookup] answers nil ([None]) for
    a name that is not among them, and else whether the value of the flag is
    a [pflag.SliceValue]; [sv_Replace] and [flags_Set] assign to a flag or fail;
    [loader] is the configuration that the flags resolve to in a given
    process environment; [range_order] is the order in which a [range]
    statement visits the entries of a map. *)
Record kubectl : Type := {
  flag_values : Type;
  NewConfigFlags : flag_values;
  flags_Lookup : string -> option bool;
  csv_Read : string -> result (list string);
  sv_Replace : string -> list string -> flag_values -> result flag_values;
  flags_Set : string -> string -> flag_values -> result flag_values;
  loader : flag_values -> gmap string string -> ConfigFlags_;
  range_order : gmap string string -> list (string * string)
}.

Section loading.

Variable L : kubectl.
Variable json_Unmarshal : string -> result KubeconfigExtension.

(** The loop of [ConfigFlags] over the entries still to visit. *)
Fixpoint ConfigFlags_loop (entries : list (string * string)) (flags : flag_values L)
    : result (flag_values L) :=
  match entries with
  | [] => Ok flags
  | (k, v) :: rest =>
      match flags_Lookup L k with
      | None => ConfigFlags_loop rest flags
      | Some is_slice =>
          let assigned :=
            if is_slice then
              match csv_Read L v with
              | Ok vs => sv_Replace L k vs flags
              | Err err => Err err
              end
            else flags_Set L k v flags in
          match assigned with
          | Err err =>
              Err (errcat.Newf_w User "error processing kubectl flag --%s=%s: %w" [k; v] err)
          | Ok flags => ConfigFlags_loop rest flags
          end
      end
  end.

Definition ConfigFlags (environ : gmap string string) (flagMap : gmap string string)
    : result ConfigFlags_ :=
  flags <-? ConfigFlags_loop (range_order L flagMap) (NewConfigFlags L);
  Ok (loader L flags environ).

Definition ConfigLoader (environ : gmap string string) (flagMap : gmap string string)
    : result ClientConfig :=
  configFlags <-? ConfigFlags environ flagMap;
  Ok (ToRawKubeConfigLoader configFlags).

Definition CurrentContext (environ : gmap string string) (flagMap : gmap string string)
    : result (string * string * ptr api.Context) :=
  cld <-? ConfigLoader environ flagMap;
  ns <-? loader_Namespace cld;
  config <-? RawConfig cld;
  if bool_decide (size (api.Contexts config) = 0) then
    Err (errcat.New Config "kubeconfig has no context definition")
  else
  let cc := index flagMap "context" in
  let cc := if bool_decide (cc = "") then api.CurrentContext config else cc in
  Ok (cc, ns.1, api.Contexts config !! cc).

Definition NewKubeconfig (environ : gmap string string) (c : context)
    (flagMap : gmap string string) (managerNamespaceOverride : string)
    : result Kubeconfig :=
  configFlags <-? ConfigFlags environ flagMap;
  newKubeconfig json_Unmarshal c flagMap managerNamespaceOverride configFlags.

(** The loop of [NewInClusterConfig]: every entry is handed to [flags_Set]. *)
Fixpoint NewInClusterConfig_loop (entries : list (string * string)) (flags : flag_values L)
    : result (flag_values L) :=
  match entries with
  | [] => Ok flags
  | (k, v) :: rest =>
      match flags_Set L k v flags with
      | Err err =>
          Err (errcat.Newf_w User "error processing kubectl flag --%s=%s: %w" [k; v] err)
      | Ok flags => NewInClusterConfig_loop rest flags
      end
  end.

Definition NewInClusterConfig (environ : gmap string string) (c : context)
    (flagMap : gmap string string) : result Kubeconfig :=
  flags <-? NewInClusterConfig_loop (range_order L flagMap) (NewConfigFlags L);
  let configFlags := loader L flags environ in
  let configLoader := ToRawKubeConfigLoader configFlags in
  restConfig <-? loader_ClientConfig configLoader;
  ns <-? loader_Namespace configLoader;
  let namespace := ns.1 in
  let managerNamespace := ManagerNamespace (GetEnv c) in
  let managerNamespace :=
    if bool_decide (managerNamespace = "")
    then DefaultManagerNamespace (GetConfig_Cluster c) else managerNamespace in
  Ok {| Namespace := namespace;
        Context := "";
        Server := Host restConfig;
        FlagMap := flagMap;
        client.ConfigFlags := configFlags;
        RestConfig := Some restConfig;
        Extension :=
          {| DNS := None; AlsoProxy := []; NeverProxy := [];
             Manager := Some {| mc_Namespace := managerNamespace |} |} |}.

(** The loop of [DaemonKubeconfig] over the entries of [cr.Environment]:
    the environment of the process after it, or [None] when indexing the
    first byte of an empty key panics. *)
Fixpoint DaemonKubeconfig_loop (entries : list (string * string))
    (environ : gmap string string) : option (gmap string string) :=
  match entries with
  | [] => Some environ
  | (k, v) :: rest =>
      match k with
      | EmptyString => None
      | String k0 k1 =>
          if bool_decide (k0 = "-"%char)
          then DaemonKubeconfig_loop rest (os.Unsetenv k1 environ).2
          else DaemonKubeconfig_loop rest (os.Setenv k v environ).2
      end
  end.

(** The result of [DaemonKubeconfig] and the environment of the process
    after the call; [None] is a panic. *)
Definition DaemonKubeconfig (environ : gmap string string) (c : context)
    (cr : connector.ConnectRequest)
    : option (result Kubeconfig * gmap string string) :=
  if connector.IsPodDaemon cr then
    Some (NewInClusterConfig environ c (connector.KubeFlags cr), environ)
  else
    environ ← DaemonKubeconfig_loop (range_order L (connector.Environment cr)) environ;
    let flagMap := connector.KubeFlags cr in
    Some (match ConfigFlags environ flagMap with
          | Err err => Err err
          | Ok configFlags =>
              newKubeconfig json_Unmarshal c flagMap (connector.ManagerNamespace cr)
                configFlags
          end, environ).

End loading.

(** A nil receiver or argument is [None]. *)
Definition ContextServiceAndFlagsEqual (kf okf : ptr Kubeconfig) : bool :=
  match kf, okf with
  | Some kf, Some okf =>
      bool_decide (Context kf = Context okf) &&
      bool_decide (Server kf = Server okf) &&
      bool_decide (FlagMap kf = FlagMap okf)
  | _, _ => false
  end.

Definition GetContext (kf : Kubeconfig) : string := Context kf.

Definition GetRestConfig (kf : Kubeconfig) : ptr rest_Config := RestConfig kf.

End kube.

(** ** pkg/client/cli/daemon: identifier.go and request.go *)

Module daemon.

Record Identifier : Type := {
  Name : string;
  KubeContext : string;
  Namespace : string
}.

(** [genericclioptions.ConfigFlags], by the field that request.go
    assigns. *)
Record ConfigFlags : Type := {
  Context : ptr string
}.

Record Request : Type := {
  ConnectRequest : connector.ConnectRequest;
  Docker : bool;
  Use : ptr regexp.Regexp;
  Implicit : bool;
  kubeConfig : ConfigFlags;
  kubeFlagSet : pflag.FlagSet;
  UserDaemonProfilingPort : N;
  RootDaemonProfilingPort : N
}.

Definition with_ConnectRequest (cr : Request) (r : connector.ConnectRequest) : Request :=
  {| ConnectRequest := r; Docker := Docker cr; Use := Use cr;
     Implicit := Implicit cr; kubeConfig := kubeConfig cr;
     kubeFlagSet := kubeFlagSet cr;
     UserDaemonProfilingPort := UserDaemonProfilingPort cr;
     RootDaemonProfilingPort := RootDaemonProfilingPort cr |}.

Definition with_Docker (cr : Request) (b : bool) : Request :=
  {| ConnectRequest := ConnectRequest cr; Docker := b; Use := Use cr;
     Implicit := Implicit cr; kubeConfig := kubeConfig cr;
     kubeFlagSet := kubeFlagSet cr;
     UserDaemonProfilingPort := UserDaemonProfilingPort cr;
     RootDaemonProfilingPort := RootDaemonProfilingPort cr |}.

Definition with_Use (cr : Request) (u : ptr regexp.Regexp) : Request :=
  {| ConnectRequest := ConnectRequest cr; Docker := Docker cr; Use := u;
     Implicit := Implicit cr; kubeConfig := kubeConfig cr;
     kubeFlagSet := kubeFlagSet cr;
     UserDaemonProfilingPort := UserDaemonProfilingPort cr;
     RootDaemonProfilingPort := RootDaemonProfilingPort cr |}.

Definition with_kubeConfig (cr : Request) (k : ConfigFlags) : Request :=
  {| ConnectRequest := ConnectRequest cr; Docker := Docker cr; Use := Use cr;
     Implicit := Implicit cr; kubeConfig := k;
     kubeFlagSet := kubeFlagSet cr;
     UserDaemonProfilingPort := UserDaemonProfilingPort cr;
     RootDaemonProfilingPort := RootDaemonProfilingPort cr |}.

(** [cr.KubeFlags[k] = v] *)
Definition set_KubeFlag (cr : Request) (k v : string) : Request :=
  with_ConnectRequest cr
    (connector.with_KubeFlags (ConnectRequest cr)
       (<[k := v]> (connector.KubeFlags (ConnectRequest cr)))).

(** [cr.Environment[k] = v] *)
Definition set_Environment (cr : Request) (k v : string) : Request :=
  with_ConnectRequest cr
    (connector.with_Environment (ConnectRequest cr)
       (<[k := v]> (connector.Environment (ConnectRequest cr)))).

Definition KubeFlags (cr : Request) : gmap string string :=
  connector.KubeFlags (ConnectRequest cr).

Definition Environment (cr : Request) : gmap string string :=
  connector.Environment (ConnectRequest cr).

(** [cobra.Command]: its name, the flags it resolves by name, and the
    request stored in its context under [requestKey]. *)
Record Command : Type := {
  cmd_Name : string;
  cmd_flags : gmap string pflag.Flag;
  cmd_request : ptr Request
}.

Definition Flag (cmd : Command) (name : string) : ptr pflag.Flag :=
  cmd_flags cmd !! name.

Definition SetContext_WithValue (cmd : Command) (cr : Request) : Command :=
  {| cmd_Name := cmd_Name cmd; cmd_flags := cmd_flags cmd; cmd_request := Some cr |}.

Section daemon.

(** [SafeContainerName] and [slice.AsCSV] belong to files that are not
    among the sources; the parser of regexp/syntax and the environment
    of the process are the surroundings of a call. *)
Variable SafeContainerName : string -> string.
Variable AsCSV : list string -> string.
Variable syntax_Parse : string -> option (string * string).
Variable environ : gmap string string.

Definition os_LookupEnv (key : string) : option string := environ !! key.

Definition NewIdentifier (name contextName namespace : string) : result Identifier :=
  if bool_decide (namespace = "") then
    Err (errors_New "daemon identifier must have a namespace")
  else
    let name :=
      if bool_decide (name = "") then
        if bool_decide (contextName = "") then "in-cluster-" +:+ namespace
        else contextName +:+ "-" +:+ namespace
      else name in
    Ok {| KubeContext := contextName; Namespace := namespace;
          Name := SafeContainerName name |}.

Definition InfoFileName (id : Identifier) : string := Name id +:+ ".json".

Definition ContainerName (id : Identifier) : string := "tp-" +:+ Name id.

(** The function literal that [CommitFlags] hands to [VisitAll]. *)
Definition commit_flag (cr : Request) (flag : pflag.Flag) : Request :=
  if pflag.Changed flag then
    let v :=
      match pflag.GetSlice (pflag.Value flag) with
      | Some sl => AsCSV sl
      | None => pflag.String (pflag.Value flag)
      end in
    set_KubeFlag cr (pflag.Name flag) v
  else cr.

(** The function literal [addEnv] of [addKubeconfigEnv]. *)
Definition addEnv (cr : Request) (key : string) : Request :=
  match os_LookupEnv key with
  | Some v => set_Environment cr key v
  | None => set_Environment cr ("-" +:+ key) ""
  end.

Definition addKubeconfigEnv (cr : Request) : Request :=
  let cr := with_ConnectRequest cr (connector.with_Environment (ConnectRequest cr) ∅) in
  let cr := addEnv cr "KUBECONFIG" in
  addEnv cr "GOOGLE_APPLICATION_CREDENTIALS".

Definition setGlobalConnectFlags (cr : Request) (cmd : Command)
    : option error * Request :=
  let cr :=
    match Flag cmd global.FlagContext with
    | Some contextFlag =>
        if pflag.Changed contextFlag then
          let cn := pflag.String (pflag.Value contextFlag) in
          let cr := set_KubeFlag cr global.FlagContext cn in
          with_kubeConfig cr {| Context := Some cn |}
        else cr
    | None => cr
    end in
  let cr :=
    match Flag cmd global.FlagDocker with
    | Some dockerFlag =>
        if pflag.Changed dockerFlag then
          with_Docker cr
            (default false (strconv.ParseBool (pflag.String (pflag.Value dockerFlag))))
        else cr
    | None => cr
    end in
  match Flag cmd global.FlagUse with
  | Some useFlag =>
      if pflag.Changed useFlag then
        match regexp.Compile syntax_Parse (pflag.String (pflag.Value useFlag)) with
        | Ok re => (None, with_Use cr (Some re))
        | Err err => (Some err, with_Use cr None)
        end
      else (None, cr)
  | None => (None, cr)
  end.

Definition CommitFlags (cr : Request) (cmd : Command)
    : option error * Request * Command :=
  let cr := pflag.VisitAll (kubeFlagSet cr) commit_flag cr in
  let cr := addKubeconfigEnv cr in
  match setGlobalConnectFlags cr cmd with
  | (Some err, cr) => (Some err, cr, cmd)
  | (None, cr) => (None, cr, SetContext_WithValue cmd cr)
  end.

End daemon.

(** A [context.Context], by the value it holds under [requestKey]. *)
Record context : Type := {
  Value_requestKey : ptr Request
}.

(** [cmd.Context()] *)
Definition Context_of (cmd : Command) : context :=
  {| Value_requestKey := cmd_request cmd |}.

Definition GetRequest (ctx : context) : ptr Request := Value_requestKey ctx.

(** [corev1.Namespace], by its name. *)
Record Namespace_ : Type := {
  ns_Name : string
}.

Inductive ShellCompDirective : Type :=
| ShellCompDirectiveError
| ShellCompDirectiveNoFileComp.

Section request.

Variable SafeContainerName : string -> string.
Variable AsCSV : list string -> string.
Variable syntax_Parse : string -> option (string * string).
Variable environ : gmap string string.

(** The library around the kubeconfig, and the calls that reach the
    cluster or the kubeconfig files: [ToRESTConfig] on the flags of the
    request, [kubernetes.NewForConfig], the listing of the namespaces, and
    [GetStartingConfig] on path options with the given explicit file.
    [Error_text] is the text that an error renders as. *)
Variable L : kube.kubectl.
Variable clientset : Type.
Variable ToRESTConfig : ConfigFlags -> result client.rest_Config.
Variable NewForConfig : client.rest_Config -> result clientset.
Variable Namespaces_List : clientset -> result (list Namespace_).
Variable GetStartingConfig : string -> result client.api.Config.
Variable Error_text : error -> string.

(** The order in which a [range] statement visits the cluster names. *)
Variable range_clusters : gmap string client.api.Cluster_ -> list string.

Definition IdentifierFromFlags (name : string) (flagMap : gmap string string)
    : result Identifier :=
  match kube.ConfigLoader L environ flagMap with
  | Err err => Err err
  | Ok cld =>
  match client.loader_Namespace cld with
  | Err err => Err err
  | Ok (ns, _) =>
  match client.RawConfig cld with
  | Err err => Err err
  | Ok config =>
      let cc := client.index flagMap "context" in
      let cc := if bool_decide (cc = "") then client.api.CurrentContext config else cc in
      NewIdentifier SafeContainerName name cc ns
  end end end.

(** The third component is the string that [cr.kubeConfig.Namespace]
    points to when the function returns. *)
Definition WithDefaultRequest (ctx : context) (cmd : Command)
    : context * option error * string :=
  let cr :=
    {| ConnectRequest :=
         {| connector.KubeFlags := ∅; connector.Environment := ∅;
            connector.Name := ""; connector.MappedNamespaces := [];
            connector.AlsoProxy := []; connector.NeverProxy := [];
            connector.ManagerNamespace := ""; connector.IsPodDaemon := false |};
       Docker := false; Use := None;
       Implicit := true;
       kubeConfig := {| Context := None |};
       kubeFlagSet := [];
       UserDaemonProfilingPort := 0; RootDaemonProfilingPort := 0 |} in
  let '(cr, kubeConfig_Namespace) :=
    if bool_decide (cmd_Name cmd ≠ "list") then
      match Flag cmd "namespace" with
      | Some nsFlag =>
          if pflag.Changed nsFlag then
            let ns := pflag.String (pflag.Value nsFlag) in
            (set_KubeFlag cr "namespace" ns, ns)
          else (cr, "")
      | None => (cr, "")
      end
    else (cr, "") in
  match setGlobalConnectFlags syntax_Parse cr cmd with
  | (Some err, _) => (ctx, Some err, kubeConfig_Namespace)
  | (None, cr) =>
      let cr := addKubeconfigEnv environ cr in
      ({| Value_requestKey := Some cr |}, None, kubeConfig_Namespace)
  end.

Definition GetKubeStartingConfig (cmd : Command) : result client.api.Config :=
  let ExplicitFileFlag :=
    match Flag cmd "kubeconfig" with
    | Some kcFlag =>
        if pflag.Changed kcFlag then pflag.String (pflag.Value kcFlag) else ""
    | None => ""
    end in
  GetStartingConfig ExplicitFileFlag.

(** The loop of [GetAllNamespaces] that fills [nss], a slice made with
    the length of [itms], at the indices of [itms] from [i] on. *)
Fixpoint GetAllNamespaces_loop (nss : list string) (i : nat) (itms : list Namespace_)
    : list string :=
  match itms with
  | [] => nss
  | itm :: rest => GetAllNamespaces_loop (<[i := ns_Name itm]> nss) (S i) rest
  end.

(** The methods on a request return the request and the command as they
    leave them. *)
Definition GetAllNamespaces (cr : Request) (cmd : Command)
    : result (list string) * Request * Command :=
  match CommitFlags AsCSV syntax_Parse environ cr cmd with
  | (Some err, cr, cmd) => (Err err, cr, cmd)
  | (None, cr, cmd) =>
      (match ToRESTConfig (kubeConfig cr) with
       | Err err => Err (errcat.Newf NoDaemonLogs "ToRESTConfig: %v" [Error_text err])
       | Ok rs =>
       match NewForConfig rs with
       | Err err => Err (errcat.Newf NoDaemonLogs "NewForConfig: %v" [Error_text err])
       | Ok cs =>
       match Namespaces_List cs with
       | Err err => Err (errcat.Newf NoDaemonLogs "Namespaces.List: %v" [Error_text err])
       | Ok itms =>
           Ok (GetAllNamespaces_loop (replicate (length itms) "") 0 itms)
       end end end, cr, cmd)
  end.

Definition autocompleteNamespace (cr : Request) (cmd : Command) (toComplete : string)
    : list string * ShellCompDirective * Request * Command :=
  match GetAllNamespaces cr cmd with
  | (Err err, cr, cmd) => ([], ShellCompDirectiveError, cr, cmd)
  | (Ok nss, cr, cmd) => (nss, ShellCompDirectiveNoFileComp, cr, cmd)
  end.

Definition GetConfig (cr : Request) (cmd : Command)
    : result client.api.Config * Request * Command :=
  match CommitFlags AsCSV syntax_Parse environ cr cmd with
  | (Some err, cr, cmd) => (Err err, cr, cmd)
  | (None, cr, cmd) =>
      (match GetKubeStartingConfig cmd with
       | Err err =>
           Err (errcat.Newf NoDaemonLogs "GetKubeStartingConfig: %v" [Error_text err])
       | Ok cfg => Ok cfg
       end, cr, cmd)
  end.

(** The loop of [autocompleteCluster] that writes the names into [cs], a
    slice made with the number of clusters, from index [i] on. *)
Fixpoint autocompleteCluster_loop (cs : list string) (i : nat) (names : list string)
    : list string :=
  match names with
  | [] => cs
  | n :: rest => autocompleteCluster_loop (<[i := n]> cs) (S i) rest
  end.

Definition autocompleteCluster (cr : Request) (cmd : Command) (toComplete : string)
    : list string * ShellCompDirective * Request * Command :=
  match GetConfig cr cmd with
  | (Err err, cr, cmd) => ([], ShellCompDirectiveError, cr, cmd)
  | (Ok config, cr, cmd) =>
      let cxl := client.api.Clusters config in
      (autocompleteCluster_loop (replicate (size cxl) "") 0 (range_clusters cxl),
       ShellCompDirectiveNoFileComp, cr, cmd)
  end.

End request.

End daemon.

(** ** pkg/client/cli/connect/daemon.go *)

Module connect.

Record File : Type := {
  fd : N
}.

(** [grpc.ClientConn], by the address it was dialed at. *)
Record ClientConn : Type := {
  target : string
}.

Inductive open_flag : Type :=
| O_CREATE
| O_WRONLY.

(** The calls that leave the process, indexed by what they answer:
    the file system, the elevated spawn, the socket probe of
    pkg/client/socket, the [Quit] call on the root daemon and the
    disconnect call on the user daemon. *)
Inductive call : Type -> Type :=
| Fprintln_Info (text : string) : call unit
| os_Stat (name : string) : call (option error)
| os_MkdirAll (path : string) (perm : N) : call (option error)
| os_OpenFile (name : string) (flag : list open_flag) (perm : N) : call (result File)
| File_Close (fh : File) : call (option error)
| proc_StartInBackgroundAsRoot (args : list string) : call (option error)
| socket_IsRunning (path : string) : call (bool * option error)
| socket_WaitUntilRunning (name path : string) (timeout : Z) : call (option error)
| socket_WaitUntilVanishes (name path : string) (timeout : Z) : call (option error)
| socket_Dial (path : string) : call (result ClientConn)
| DaemonClient_Quit (conn : ClientConn) : call (option error)
| UserDaemonDisconnect (quitDaemons : bool) : call (option error).

(** A program: it returns, or makes a call and goes on with the answer. *)
Inductive prog (A : Type) : Type :=
| Return (a : A)
| Call {X : Type} (c : call X) (k : X -> prog A).
Arguments Return {A} a.
Arguments Call {A X} c k.

Fixpoint bind {A B : Type} (p : prog A) (f : A -> prog B) : prog B :=
  match p with
  | Return a => f a
  | Call c k => Call c (fun x => bind (k x) f)
  end.

Definition perform {X : Type} (c : call X) : prog X := Call c Return.

Notation "x <- p ;; k" := (bind p (fun x => k))
  (at level 100, p at next level, right associativity).

(** A call as it appears in a trace. *)
Inductive event : Type :=
| Called {X : Type} (c : call X).

(** A handler answers each call from the state of the world [W] and
    moves the world on: a test double, or the real system. *)
Definition handler (W : Type) : Type := forall X : Type, call X -> W -> X * W.

(** Running [p] from world [w]: the result, the world left behind, and
    the calls made, oldest first, after those of [tr]. *)
Fixpoint run_from {W A : Type} (h : handler W) (p : prog A) (w : W) (tr : list event)
    : A * W * list event :=
  match p with
  | Return a => (a, w, tr)
  | Call c k =>
      let '(x, w') := h _ c w in
      run_from h (k x) w' (tr ++ [Called c])
  end.

Definition run {W A : Type} (h : handler W) (p : prog A) (w : W) : A * W * list event :=
  run_from h p w [].

Definition is_spawn (e : event) : bool :=
  match e with
  | Called (proc_StartInBackgroundAsRoot _) => true
  | _ => false
  end.

(** The spawn counter of a trace. *)
Definition spawn_count (tr : list event) : nat :=
  length (filter (fun e => is_spawn e = true) tr).

Record UserClient : Type := {
  Remote : bool
}.

(** What the functions read from their [context.Context] and from the
    process: the user daemon client and the request stored in it, the
    client environment, the socket path and the directories. *)
Record context : Type := {
  GetUserClient : ptr UserClient;
  GetRequest : ptr daemon.Request;
  GetEnv : client.Env;
  RootDaemonPath : string;
  AppUserLogDir : string;
  AppUserConfigDir : string;
  GetExe : string
}.

Definition Second : Z := 1000000000.

(** The octal permission bits [0o700] and [0o600]. *)
Definition perm_0o700 : N := 7 * 64.
Definition perm_0o600 : N := 6 * 64.

Definition os_IsNotExist (err : error) : bool :=
  match err with
  | fs_PathError _ _ notExist => notExist
  | _ => false
  end.

Section connect.

Variable filepath_Join : string -> string -> string.

Definition launchDaemon (ctx : context) (cr : ptr daemon.Request) : prog (option error) :=
  _ <- perform (Fprintln_Info "Launching Telepresence Root Daemon");;
  let logDir := AppUserLogDir ctx in
  let logFile := filepath_Join logDir "daemon.log" in
  err <- perform (os_Stat logFile);;
  failed <-
    match err with
    | Some err =>
        if negb (os_IsNotExist err) then Return (Some err)
        else
          err <- perform (os_MkdirAll logDir perm_0o700);;
          match err with
          | Some err => Return (Some err)
          | None =>
              r <- perform (os_OpenFile logFile [O_CREATE; O_WRONLY] perm_0o600);;
              match r with
              | Err err => Return (Some err)
              | Ok fh => _ <- perform (File_Close fh);; Return None
              end
          end
    | None => Return None
    end;;
  match failed with
  | Some err => Return (Some err)
  | None =>
      let args := [GetExe ctx; "daemon-foreground"] in
      let args :=
        match cr with
        | Some cr =>
            if bool_decide (0 < daemon.RootDaemonProfilingPort cr)%N
            then args ++ ["--pprof"; pretty (daemon.RootDaemonProfilingPort cr)]
            else args
        | None => args
        end in
      let args := args ++ [logDir; AppUserConfigDir ctx] in
      perform (proc_StartInBackgroundAsRoot args)
  end.

Definition ensureRootDaemonRunning (ctx : context) : prog (option error) :=
  if match GetUserClient ctx with Some ud => Remote ud | None => false end then
    Return None
  else
  let cr := GetRequest ctx in
  if match cr with Some cr => daemon.Docker cr | None => false end then
    Return None
  else
  if bool_decide (client.UserDaemonAddress (GetEnv ctx) ≠ "") then
    Return None
  else
  probe <- perform (socket_IsRunning (RootDaemonPath ctx));;
  let '(running, err) := probe in
  if bool_decide (err ≠ None) || running then Return err
  else
  err <- launchDaemon ctx cr;;
  match err with
  | Some err =>
      Return (Some (fmt_Errorf_w "failed to launch the daemon service: %w" [] err))
  | None =>
      err <- perform (socket_WaitUntilRunning "daemon" (RootDaemonPath ctx) (10 * Second));;
      match err with
      | Some err =>
          Return (Some (fmt_Errorf_w "daemon service did not start: %w" [] err))
      | None => Return None
      end
  end.

Definition Disconnect (ctx : context) (quitDaemons : bool) : prog (option error) :=
  err <- perform (UserDaemonDisconnect quitDaemons);;
  let err := if errors.Is_ErrNoUserDaemon err then None else err in
  match err with
  | Some err =>
      Return (Some (fmt_Errorf_w "error when quitting connector: %w" [] err))
  | None =>
      if quitDaemons then
        err <- perform (socket_WaitUntilVanishes "root daemon" (RootDaemonPath ctx)
                          (5 * Second));;
        match err with
        | Some _ =>
            r <- perform (socket_Dial (RootDaemonPath ctx));;
            match r with
            | Ok conn =>
                err <- perform (DaemonClient_Quit conn);;
                match err with
                | Some err =>
                    Return (Some (fmt_Errorf_w "error when quitting root daemon: %w" [] err))
                | None => Return None
                end
            | Err err => Return (Some err)
            end
        | None => Return None
        end
      else Return None
  end.

End connect.

Section app_dirs.

Variable filepath_Join : string -> string -> string.

(** [filelocation.AppUserCacheDir], read from the context. *)
Variable AppUserCacheDir : context -> string.




End app_dirs.

End connect.

(** ** Readings used by the statements *)

Module readings.

(** The name and alias content of a message. *)
Definition content (m : rpc.DNSMapping) : string * string :=
  (rpc.Name m, rpc.AliasFor m).

(** The element that one round of the loop of [FromRPC], and of
    [ToRPC], allocates. *)
Definition of_rpc (m : rpc.DNSMapping) : client.DNSMapping :=
  {| client.Name := rpc.Name m; client.AliasFor := rpc.AliasFor m |}.

Definition to_rpc (m : client.DNSMapping) : rpc.DNSMapping :=
  {| rpc.Name := client.Name m; rpc.AliasFor := client.AliasFor m;
     rpc.unknownFields := [] |}.

(** The DNS section of a configuration as the merge reads it: a nil
    section reads as the zero value that the merge puts in its place. *)
Definition local_DNS (kf : client.Kubeconfig) : client.DnsConfig :=
  default client.DnsConfig_zero (client.DNS (client.Extension kf)).

Definition cfg_DNS_zero : client.cfg.DNS :=
  {| client.cfg.LocalIP := ""; client.cfg.RemoteIP := "";
     client.cfg.ExcludeSuffixes := []; client.cfg.IncludeSuffixes := [];
     client.cfg.Excludes := []; client.cfg.Mappings := [];
     client.cfg.LookupTimeout := 0 |}.

Definition cfg_Routing_zero : client.cfg.Routing :=
  {| client.cfg.AlsoProxy := []; client.cfg.NeverProxy := [] |}.

(** What a payload contributes: its [dns] and [routing] sections, a
    missing section or a payload that does not parse contributing
    nothing. *)
Definition payload_DNS (yaml_Unmarshal : string -> result client.remote_config)
    (cfgYaml : string) : client.cfg.DNS :=
  match yaml_Unmarshal cfgYaml with
  | Ok remote => default cfg_DNS_zero (client.remote_DNS remote)
  | Err _ => cfg_DNS_zero
  end.

Definition payload_Routing (yaml_Unmarshal : string -> result client.remote_config)
    (cfgYaml : string) : client.cfg.Routing :=
  match yaml_Unmarshal cfgYaml with
  | Ok remote => default cfg_Routing_zero (client.remote_Routing remote)
  | Err _ => cfg_Routing_zero
  end.

(** [k] names a flag of the Kubernetes flag set of [cr] that the user
    changed. *)
Definition changed_kube_flag (cr : daemon.Request) (k : string) : Prop :=
  exists f : pflag.Flag,
    f ∈ daemon.kubeFlagSet cr /\ pflag.Name f = k /\ pflag.Changed f = true.

(** [k] is the global context flag, and the user changed it. *)
Definition changed_global_context (cmd : daemon.Command) (k : string) : Prop :=
  k = global.FlagContext /\
  exists f : pflag.Flag,
    daemon.Flag cmd global.FlagContext = Some f /\ pflag.Changed f = true.

(** The first non-empty candidate, and [fallback] when all are
    empty. *)
Fixpoint first_nonempty (candidates : list string) (fallback : string) : string :=
  match candidates with
  | [] => fallback
  | s :: rest => if bool_decide (s = "") then first_nonempty rest fallback else s
  end.

(** The precedence of the manager namespace in the words of the
    specification: explicit override, then environment variable, then
    cluster extension value, then global default. *)
Definition spec_manager_namespace (override env extension fallback : string) : string :=
  first_nonempty [override; env; extension] fallback.

(** The manager namespace that a parsed extension carries; none reads
    as the empty string. *)
Definition extension_namespace (e : client.KubeconfigExtension) : string :=
  match client.Manager e with
  | Some m => client.mc_Namespace m
  | None => ""
  end.

(** The context says that the root daemon is looked after elsewhere: the
    user daemon is remote, the request asks for a daemon in a container, or
    the address of a user daemon is configured. *)
Definition managed_elsewhere (ctx : connect.context) : bool :=
  match connect.GetUserClient ctx with
  | Some ud => connect.Remote ud
  | None => false
  end
  || match connect.GetRequest ctx with
     | Some cr => daemon.Docker cr
     | None => false
     end
  || bool_decide (client.UserDaemonAddress (connect.GetEnv ctx) ≠ "").

(** An error wrapped under a message, nil staying nil. *)
Definition wrapped (format : string) (err : option error) : option error :=
  match err with
  | Some e => Some (fmt_Errorf_w format [] e)
  | None => None
  end.

(** The calls of a launch, as they appear in a trace. *)
Definition ev_probe (ctx : connect.context) : connect.event :=
  connect.Called (connect.socket_IsRunning (connect.RootDaemonPath ctx)).

Definition ev_wait_running (ctx : connect.context) : connect.event :=
  connect.Called
    (connect.socket_WaitUntilRunning "daemon" (connect.RootDaemonPath ctx)
       (10 * connect.Second)).

Definition ev_print : connect.event :=
  connect.Called (connect.Fprintln_Info "Launching Telepresence Root Daemon").

Definition ev_stat (logFile : string) : connect.event :=
  connect.Called (connect.os_Stat logFile).




Definition ev_spawn (args : list string) : connect.event :=
  connect.Called (connect.proc_StartInBackgroundAsRoot args).

(** The command line of the root daemon. *)
Definition daemon_command_line (ctx : connect.context) (cr : option daemon.Request)
    : list string :=
  match cr with
  | Some cr =>
      if bool_decide (0 < daemon.RootDaemonProfilingPort cr)%N then
        [connect.GetExe ctx; "daemon-foreground"; "--pprof";
         pretty (daemon.RootDaemonProfilingPort cr);
         connect.AppUserLogDir ctx; connect.AppUserConfigDir ctx]
      else
        [connect.GetExe ctx; "daemon-foreground";
         connect.AppUserLogDir ctx; connect.AppUserConfigDir ctx]
  | None =>
      [connect.GetExe ctx; "daemon-foreground";
       connect.AppUserLogDir ctx; connect.AppUserConfigDir ctx]
  end.

(** The error of a changed [--use] flag whose pattern the parser
    rejects; nil when the flag is missing, unchanged, or accepted. *)
Definition use_rejected (syntax_Parse : string -> option (string * string))
    (cmd : daemon.Command) : option error :=
  match daemon.Flag cmd global.FlagUse with
  | Some f =>
      if pflag.Changed f then
        match syntax_Parse (pflag.String (pflag.Value f)) with
        | Some (code, bad) => Some (syntax_Error code bad)
        | None => None
        end
      else None
  | None => None
  end.

End readings.

(** ** Test doubles and concrete inputs *)

Module doubles.

Definition dquote : string := String (Ascii.ascii_of_nat 34) EmptyString.

(** The four bytes of an IPv4 address. *)
Definition ipv4 (a b c d : nat) : string :=
  String (Ascii.ascii_of_nat a) (String (Ascii.ascii_of_nat b)
    (String (Ascii.ascii_of_nat c) (String (Ascii.ascii_of_nat d) EmptyString))).

(** *** A kubeconfig whose cluster extension names the manager namespace z *)

Definition raw_manager_z : string :=
  "{" +:+ dquote +:+ "manager" +:+ dquote +:+ ":{" +:+ dquote +:+ "namespace"
      +:+ dquote +:+ ":" +:+ dquote +:+ "z" +:+ dquote +:+ "}}".

(** A decoder that knows this one document. *)
Definition json_Unmarshal (raw : string) : result client.KubeconfigExtension :=
  if bool_decide (raw = raw_manager_z) then
    Ok {| client.DNS := None; client.AlsoProxy := []; client.NeverProxy := [];
          client.Manager := Some {| client.mc_Namespace := "z" |} |}
  else Err (foreign "encoding/json" "invalid character").

Definition cluster_z : client.api.Cluster_ :=
  {| client.api.Server := "https://10.0.0.1:6443";
     client.api.Extensions :=
       {[ client.configExtension := client.api.Unknown raw_manager_z ]} |}.

Definition config_z : client.api.Config :=
  {| client.api.Contexts := {[ "dev" := {| client.api.Cluster := "dev-cluster" |} ]};
     client.api.Clusters := {[ "dev-cluster" := cluster_z ]};
     client.api.CurrentContext := "dev" |}.

Definition rest_z : client.rest_Config :=
  {| client.Host := "https://10.0.0.1:6443" |}.

Definition configFlags_z : client.ConfigFlags_ :=
  {| client.ToRawKubeConfigLoader :=
       {| client.RawConfig := Ok config_z;
          client.loader_Namespace := Ok ("default", false);
          client.loader_ClientConfig := Ok rest_z |} |}.

(** A context whose environment names the manager namespace y. *)
Definition context_env_y : client.context :=
  {| client.GetEnv :=
       {| client.ManagerNamespace := "y"; client.UserDaemonAddress := "" |};
     client.GetConfig_Cluster :=
       {| client.DefaultManagerNamespace := "ambassador" |} |}.

(** *** A remote payload with a dns section *)

Definition payload_text : string := "dns: {localIP: 10.0.0.53}".

Definition payload_dns : client.cfg.DNS :=
  {| client.cfg.LocalIP := ipv4 10 0 0 53; client.cfg.RemoteIP := "";
     client.cfg.ExcludeSuffixes := []; client.cfg.IncludeSuffixes := [];
     client.cfg.Excludes := []; client.cfg.Mappings := [];
     client.cfg.LookupTimeout := 0 |}.

Definition yaml_Unmarshal (cfgYaml : string) : result client.remote_config :=
  if bool_decide (cfgYaml = payload_text) then
    Ok {| client.remote_DNS := Some payload_dns; client.remote_Routing := None |}
  else Err (foreign "yaml" "cannot unmarshal").

Definition kubeconfig_with (dns : option client.DnsConfig) : client.Kubeconfig :=
  {| client.Extension :=
       {| client.DNS := dns; client.AlsoProxy := []; client.NeverProxy := [];
          client.Manager := None |};
     client.Namespace := "default"; client.Context := "dev";
     client.Server := "https://10.0.0.1:6443"; client.FlagMap := ∅;
     client.ConfigFlags := configFlags_z; client.RestConfig := Some rest_z |}.

Definition dns_local_set : client.DnsConfig :=
  {| client.LocalIP := ipv4 127 0 0 53; client.RemoteIP := "";
     client.ExcludeSuffixes := []; client.IncludeSuffixes := [];
     client.Excludes := []; client.Mappings := []; client.LookupTimeout := 0 |}.

(** *** Requests, commands and their surroundings *)

(** Names over the safe alphabet are left as they are; the double is
    applied to such names only. *)
Definition SafeContainerName (name : string) : string := name.

Definition AsCSV (sl : list string) : string := String.concat "," sl.

(** A parser that rejects the pattern made of one opening parenthesis. *)
Definition syntax_Parse (str : string) : option (string * string) :=
  if bool_decide (str = "(") then Some ("missing closing )", "(") else None.

Definition string_value (str : string) : pflag.Value_ :=
  {| pflag.String := str; pflag.GetSlice := None |}.

(** The Kubernetes flags after parsing a command line that sets
    [--namespace] only: [--request-timeout] keeps its default. *)
Definition kubeFlags_namespace_only : list pflag.Flag :=
  [ {| pflag.Name := "namespace"; pflag.Value := string_value "dev";
       pflag.Changed := true |};
    {| pflag.Name := "request-timeout"; pflag.Value := string_value "0";
       pflag.Changed := false |} ].

Definition request : daemon.Request :=
  {| daemon.ConnectRequest :=
       {| connector.KubeFlags := ∅; connector.Environment := ∅;
          connector.Name := ""; connector.MappedNamespaces := [];
          connector.AlsoProxy := []; connector.NeverProxy := [];
          connector.ManagerNamespace := ""; connector.IsPodDaemon := false |};
     daemon.Docker := false; daemon.Use := None; daemon.Implicit := false;
     daemon.kubeConfig := {| daemon.Context := None |};
     daemon.kubeFlagSet := kubeFlags_namespace_only;
     daemon.UserDaemonProfilingPort := 0; daemon.RootDaemonProfilingPort := 0 |}.

(** A command whose [--use] flag was given the value [pattern]. *)
Definition command_use (pattern : string) : daemon.Command :=
  {| daemon.cmd_Name := "connect";
     daemon.cmd_flags :=
       {[ global.FlagUse :=
            {| pflag.Name := global.FlagUse; pflag.Value := string_value pattern;
               pflag.Changed := true |} ]};
     daemon.cmd_request := None |}.

(** *** The system around the root daemon *)

Definition connect_context : connect.context :=
  {| connect.GetUserClient := None;
     connect.GetRequest := None;
     connect.GetEnv :=
       {| client.ManagerNamespace := ""; client.UserDaemonAddress := "" |};
     connect.RootDaemonPath := "/var/run/telepresence-daemon.socket";
     connect.AppUserLogDir := "/home/dev/.cache/telepresence/logs";
     connect.AppUserConfigDir := "/home/dev/.config/telepresence";
     connect.GetExe := "/usr/local/bin/telepresence" |}.

Definition filepath_Join (dir name : string) : string := dir +:+ "/" +:+ name.

(** A system that counts the calls it has answered.  The socket probe
    answers [running]; waiting for the socket to vanish answers [waited];
    dialing answers [dialed]; the [Quit] call answers [quit]; every other
    call succeeds. *)
Definition system (running : bool) (waited : option error)
    (dialed : result connect.ClientConn) (quit : option error)
    : connect.handler nat :=
  fun (X : Type) (c : connect.call X) (n : nat) =>
    match c in connect.call X return X * nat with
    | connect.Fprintln_Info _ => (tt, S n)
    | connect.os_Stat _ => (None, S n)
    | connect.os_MkdirAll _ _ => (None, S n)
    | connect.os_OpenFile _ _ _ => (Ok {| connect.fd := 3 |}, S n)
    | connect.File_Close _ => (None, S n)
    | connect.proc_StartInBackgroundAsRoot _ => (None, S n)
    | connect.socket_IsRunning _ => ((running, None), S n)
    | connect.socket_WaitUntilRunning _ _ _ => (None, S n)
    | connect.socket_WaitUntilVanishes _ _ _ => (waited, S n)
    | connect.socket_Dial _ => (dialed, S n)
    | connect.DaemonClient_Quit _ => (quit, S n)
    | connect.UserDaemonDisconnect _ => (None, S n)
    end.

Definition timed_out : error := foreign "socket" "timeout while waiting for root daemon to exit".

Definition dial_failed : error := foreign "grpc" "context deadline exceeded".

(** A context whose user daemon is remote. *)
Definition connect_context_remote : connect.context :=
  {| connect.GetUserClient := Some {| connect.Remote := true |};
     connect.GetRequest := None;
     connect.GetEnv :=
       {| client.ManagerNamespace := ""; client.UserDaemonAddress := "" |};
     connect.RootDaemonPath := "/var/run/telepresence-daemon.socket";
     connect.AppUserLogDir := "/home/dev/.cache/telepresence/logs";
     connect.AppUserConfigDir := "/home/dev/.config/telepresence";
     connect.GetExe := "/usr/local/bin/telepresence" |}.


(** A system in which the probe of the socket fails. *)
Definition probe_failed : error := foreign "socket" "permission denied".

Definition system_probe_fails : connect.handler nat :=
  fun (X : Type) (c : connect.call X) (n : nat) =>
    match c in connect.call X return X * nat with
    | connect.socket_IsRunning _ => ((false, Some probe_failed), S n)
    | c => system false None (Err dial_failed) None _ c n
    end.

(** A system in which the socket of the launched daemon never appears. *)
Definition never_ready : error := foreign "socket" "timeout while waiting for daemon to start".

Definition system_never_ready : connect.handler nat :=
  fun (X : Type) (c : connect.call X) (n : nat) =>
    match c in connect.call X return X * nat with
    | connect.socket_WaitUntilRunning _ _ _ => (Some never_ready, S n)
    | c => system false None (Err dial_failed) None _ c n
    end.

(** A system whose user daemon fails to disconnect. *)
Definition user_daemon_failed : error := foreign "grpc" "connection reset".

Definition system_user_daemon_fails : connect.handler nat :=
  fun (X : Type) (c : connect.call X) (n : nat) =>
    match c in connect.call X return X * nat with
    | connect.UserDaemonDisconnect _ => (Some user_daemon_failed, S n)
    | c => system false None (Err dial_failed) None _ c n
    end.

(** A command whose global [--context] and [--docker] flags were given. *)
Definition command_context_docker (contextName docker : string) : daemon.Command :=
  {| daemon.cmd_Name := "connect";
     daemon.cmd_flags :=
       {[ global.FlagContext :=
            {| pflag.Name := global.FlagContext; pflag.Value := string_value contextName;
               pflag.Changed := true |};
          global.FlagDocker :=
            {| pflag.Name := global.FlagDocker; pflag.Value := string_value docker;
               pflag.Changed := true |} ]};
     daemon.cmd_request := None |}.

(** The list command, given the deprecated [--namespace] flag. *)
Definition command_list_namespace : daemon.Command :=
  {| daemon.cmd_Name := "list";
     daemon.cmd_flags :=
       {[ "namespace" :=
            {| pflag.Name := "namespace"; pflag.Value := string_value "dev";
               pflag.Changed := true |} ]};
     daemon.cmd_request := None |}.

(** *** The libraries around the kubeconfig *)

(** Flags that hold the string they were set to; [context], [namespace]
    and [kubeconfig] are known, [as-group] is known and holds a slice; the
    comma separated form is split at its commas; the loader is the one of
    the kubeconfig above, whatever the flags and the environment; a map is
    visited in the order of its list of entries. *)
Definition kubectl : kube.kubectl :=
  {| kube.flag_values := gmap string string;
     kube.NewConfigFlags := ∅;
     kube.flags_Lookup :=
       fun k =>
         if bool_decide (k ∈ ["context"; "namespace"; "kubeconfig"]) then Some false
         else if bool_decide (k = "as-group") then Some true
         else None;
     kube.csv_Read := fun v => Ok [v];
     kube.sv_Replace := fun k vs flags => Ok (<[k := String.concat "," vs]> flags);
     kube.flags_Set :=
       fun k v flags =>
         if bool_decide (k ∈ ["context"; "namespace"; "kubeconfig"; "as-group"])
         then Ok (<[k := v]> flags)
         else Err (foreign "pflag" "no such flag");
     kube.loader := fun _ _ => configFlags_z;
     kube.range_order := map_to_list |}.

(** What the kubeconfig above resolves to in the context whose
    environment names the manager namespace y, for the empty flag map and
    no override. *)
Definition kubeconfig_z : client.Kubeconfig :=
  {| client.Extension :=
       {| client.DNS := None; client.AlsoProxy := []; client.NeverProxy := [];
          client.Manager := Some {| client.mc_Namespace := "z" |} |};
     client.Namespace := "default"; client.Context := "dev";
     client.Server := "https://10.0.0.1:6443"; client.FlagMap := ∅;
     client.ConfigFlags := configFlags_z; client.RestConfig := Some rest_z |}.

Definition GetStartingConfig (explicitFile : string) : result client.api.Config :=
  Ok config_z.

Definition Error_text (e : error) : string := "error".

Definition range_clusters (m : gmap string client.api.Cluster_) : list string :=
  (map_to_list m).*1.

Definition no_context : daemon.context := {| daemon.Value_requestKey := None |}.

(** A connect request whose propagation map has an entry under the empty
    key. *)
Definition connect_request_empty_key : connector.ConnectRequest :=
  {| connector.KubeFlags := ∅; connector.Environment := {[ "" := "x" ]};
     connector.Name := ""; connector.MappedNamespaces := [];
     connector.AlsoProxy := []; connector.NeverProxy := [];
     connector.ManagerNamespace := ""; connector.IsPodDaemon := false |}.

(** The environment of a client that sets [KUBECONFIG] only, and the
    environment of a daemon that was started with other settings. *)
Definition client_environ : gmap string string := {[ "KUBECONFIG" := "/a:/b" ]}.

Definition daemon_environ : gmap string string :=
  {[ "KUBECONFIG" := "/stale"; "GOOGLE_APPLICATION_CREDENTIALS" := "/stale.json";
     "HOME" := "/root" ]}.

End doubles.

(** * Properties *)

(** ** DNS mappings *)

Lemma FromRPC_loop_allocated (l : list rpc.DNSMapping) (d : list (option client.DNSMapping)) :
  client.FromRPC_loop d (Some <$> l) = Some (d ++ (Some <$> (readings.of_rpc <$> l))).
Proof.
  revert d. induction l as [|m l IH]; intros d; simpl.
  - by rewrite app_nil_r.
  - rewrite IH. by rewrite <- app_assoc.
Qed.

Lemma ToRPC_loop_allocated (l : list client.DNSMapping) (acc : list (option rpc.DNSMapping)) :
  client.ToRPC_loop acc (Some <$> l) = Some (acc ++ (Some <$> (readings.to_rpc <$> l))).
Proof.
  revert acc. induction l as [|m l IH]; intros acc; simpl.
  - by rewrite app_nil_r.
  - rewrite IH. by rewrite <- app_assoc.
Qed.

(** C10: for every list of RPC DNS mappings, [FromRPC] followed by [ToRPC]
    gives a list of the same length whose entries carry the same name and
    alias, in the same order. *)
Theorem ToRPC_FromRPC_content (l : list rpc.DNSMapping) :
  exists (d : list (option client.DNSMapping)) (l' : list rpc.DNSMapping),
    client.FromRPC (Some <$> l) = Some d /\
    client.ToRPC d = Some (Some <$> l') /\
    length l' = length l /\
    readings.content <$> l' = readings.content <$> l.
Proof.
  exists (Some <$> (readings.of_rpc <$> l)).
  exists (readings.to_rpc <$> (readings.of_rpc <$> l)).
  split; [|split; [|split]].
  - unfold client.FromRPC. by rewrite FromRPC_loop_allocated.
  - unfold client.ToRPC. by rewrite ToRPC_loop_allocated.
  - by rewrite !length_fmap.
  - rewrite <- !list_fmap_compose. by apply list_fmap_ext.
Qed.

(** ** Merging the remote extension *)

Section merge.

Variable yaml_Unmarshal : string -> result client.remote_config.

(** The receiver after the call. *)
Local Abbreviation merge kf cfgYaml :=
  (client.AddRemoteKubeConfigExtension yaml_Unmarshal kf cfgYaml).2.

(** One merge, field by field of the DNS section and of the routing
    lists, in terms of what the payload contributes. *)
Lemma merge_once (kf : client.Kubeconfig) (cfgYaml : string) :
  let local := readings.local_DNS kf in
  let dns := readings.payload_DNS yaml_Unmarshal cfgYaml in
  let routing := readings.payload_Routing yaml_Unmarshal cfgYaml in
  let kf' := merge kf cfgYaml in
  client.LocalIP (readings.local_DNS kf') =
    (if bool_decide (client.LocalIP local = "")
     then client.cfg.LocalIP dns else client.LocalIP local) /\
  client.RemoteIP (readings.local_DNS kf') =
    (if bool_decide (client.RemoteIP local = "")
     then client.cfg.RemoteIP dns else client.RemoteIP local) /\
  client.LookupTimeout (readings.local_DNS kf') =
    (if bool_decide (client.LookupTimeout local = 0%Z)
     then client.cfg.LookupTimeout dns else client.LookupTimeout local) /\
  client.ExcludeSuffixes (readings.local_DNS kf') =
    client.ExcludeSuffixes local ++ client.cfg.ExcludeSuffixes dns /\
  client.IncludeSuffixes (readings.local_DNS kf') =
    client.IncludeSuffixes local ++ client.cfg.IncludeSuffixes dns /\
  client.Excludes (readings.local_DNS kf') =
    client.Excludes local ++ client.cfg.Excludes dns /\
  client.Mappings (readings.local_DNS kf') =
    client.Mappings local ++ client.cfg.Mappings dns /\
  client.AlsoProxy (client.Extension kf') =
    client.AlsoProxy (client.Extension kf) ++ client.cfg.AlsoProxy routing /\
  client.NeverProxy (client.Extension kf') =
    client.NeverProxy (client.Extension kf) ++ client.cfg.NeverProxy routing.
Proof.
  unfold client.AddRemoteKubeConfigExtension,
    readings.payload_DNS, readings.payload_Routing, readings.local_DNS.
  destruct (yaml_Unmarshal cfgYaml) as [[rdns rrouting]|e]; simpl.
  - destruct rdns as [dns|], rrouting as [routing|]; simpl;
      rewrite ?app_nil_r;
      repeat split; try reflexivity;
      try case_bool_decide; auto.
  - rewrite !app_nil_r. repeat split; try case_bool_decide; auto.
Qed.

Lemma fill_only_twice {A : Type} `{EqDecision A} (zero remote x0 : A) :
  let x1 := if bool_decide (x0 = zero) then remote else x0 in
  (if bool_decide (x1 = zero) then remote else x1) = x1.
Proof.
  simpl. repeat case_bool_decide; congruence.
Qed.

(** C7: merging the same payload a second time leaves [LocalIP],
    [RemoteIP] and [LookupTimeout] as the first merge left them, and each
    merge extends every list field: the entries present before the merge
    stay in place and order, and the entries of the payload follow
    them. *)
Theorem merge_twice_scalars_fixed_lists_extended
    (kf : client.Kubeconfig) (cfgYaml : string) :
  let dns := readings.payload_DNS yaml_Unmarshal cfgYaml in
  let routing := readings.payload_Routing yaml_Unmarshal cfgYaml in
  let d0 := readings.local_DNS kf in
  let kf1 := merge kf cfgYaml in
  let d1 := readings.local_DNS kf1 in
  let kf2 := merge kf1 cfgYaml in
  let d2 := readings.local_DNS kf2 in
  (client.LocalIP d2 = client.LocalIP d1 /\
   client.RemoteIP d2 = client.RemoteIP d1 /\
   client.LookupTimeout d2 = client.LookupTimeout d1) /\
  (client.ExcludeSuffixes d1 = client.ExcludeSuffixes d0 ++ client.cfg.ExcludeSuffixes dns /\
   client.ExcludeSuffixes d2 = client.ExcludeSuffixes d1 ++ client.cfg.ExcludeSuffixes dns) /\
  (client.IncludeSuffixes d1 = client.IncludeSuffixes d0 ++ client.cfg.IncludeSuffixes dns /\
   client.IncludeSuffixes d2 = client.IncludeSuffixes d1 ++ client.cfg.IncludeSuffixes dns) /\
  (client.Excludes d1 = client.Excludes d0 ++ client.cfg.Excludes dns /\
   client.Excludes d2 = client.Excludes d1 ++ client.cfg.Excludes dns) /\
  (client.Mappings d1 = client.Mappings d0 ++ client.cfg.Mappings dns /\
   client.Mappings d2 = client.Mappings d1 ++ client.cfg.Mappings dns) /\
  (client.AlsoProxy (client.Extension kf1) =
     client.AlsoProxy (client.Extension kf) ++ client.cfg.AlsoProxy routing /\
   client.AlsoProxy (client.Extension kf2) =
     client.AlsoProxy (client.Extension kf1) ++ client.cfg.AlsoProxy routing) /\
  (client.NeverProxy (client.Extension kf1) =
     client.NeverProxy (client.Extension kf) ++ client.cfg.NeverProxy routing /\
   client.NeverProxy (client.Extension kf2) =
     client.NeverProxy (client.Extension kf1) ++ client.cfg.NeverProxy routing).
Proof.
  intros dns routing d0 kf1 d1 kf2 d2.
  destruct (merge_once kf cfgYaml)
    as (Hl1 & Hr1 & Ht1 & Hes1 & His1 & Hex1 & Hm1 & Hap1 & Hnp1).
  destruct (merge_once kf1 cfgYaml)
    as (Hl2 & Hr2 & Ht2 & Hes2 & His2 & Hex2 & Hm2 & Hap2 & Hnp2).
  fold kf1 in Hl1, Hr1, Ht1, Hes1, His1, Hex1, Hm1, Hap1, Hnp1.
  fold kf2 in Hl2, Hr2, Ht2, Hes2, His2, Hex2, Hm2, Hap2, Hnp2.
  fold dns in Hl1, Hr1, Ht1, Hes1, His1, Hex1, Hm1, Hl2, Hr2, Ht2, Hes2, His2, Hex2, Hm2.
  fold routing in Hap1, Hnp1, Hap2, Hnp2.
  fold d0 in Hl1, Hr1, Ht1, Hes1, His1, Hex1, Hm1.
  fold d1 in Hl1, Hr1, Ht1, Hes1, His1, Hex1, Hm1, Hl2, Hr2, Ht2, Hes2, His2, Hex2, Hm2.
  fold d2 in Hl2, Hr2, Ht2, Hes2, His2, Hex2, Hm2.
  split; [split; [|split]|].
  - rewrite Hl2, Hl1. apply fill_only_twice.
  - rewrite Hr2, Hr1. apply fill_only_twice.
  - rewrite Ht2, Ht1. apply fill_only_twice.
  - repeat split; assumption.
Qed.

(** C8: a [LocalIP] that is already set survives the merge of any
    payload, and an empty one is set to the [LocalIP] of the [dns]
    section of a payload that has such a section. *)
Theorem merge_LocalIP_fill_only (kf : client.Kubeconfig) (cfgYaml : string) :
  let kf' := merge kf cfgYaml in
  (client.LocalIP (readings.local_DNS kf) ≠ "" ->
   client.LocalIP (readings.local_DNS kf') = client.LocalIP (readings.local_DNS kf)) /\
  (forall (remote : client.remote_config) (dns : client.cfg.DNS),
     client.LocalIP (readings.local_DNS kf) = "" ->
     yaml_Unmarshal cfgYaml = Ok remote ->
     client.remote_DNS remote = Some dns ->
     client.LocalIP (readings.local_DNS kf') = client.cfg.LocalIP dns).
Proof.
  intros kf'. destruct (merge_once kf cfgYaml) as (Hl & _). fold kf' in Hl.
  split.
  - intros Hset. rewrite Hl. by rewrite bool_decide_eq_false_2.
  - intros remote dns Hempty Hparse Hdns. rewrite Hl.
    rewrite bool_decide_eq_true_2 by assumption.
    unfold readings.payload_DNS. by rewrite Hparse, Hdns.
Qed.

End merge.

(** ** The session identifier *)

(** C6: with no explicit name and a namespace, the identifier is built
    and named by the sanitized [<context>-<namespace>], or by the sanitized
    [in-cluster-<namespace>] when there is no context; without a namespace
    the construction fails whatever the name and the context. *)
Theorem NewIdentifier_default_name
    (SafeContainerName : string -> string) (name c n : string) :
  (n ≠ "" ->
   daemon.NewIdentifier SafeContainerName "" c n =
     Ok {| daemon.Name :=
             SafeContainerName
               (if bool_decide (c = "") then "in-cluster-" +:+ n else c +:+ "-" +:+ n);
           daemon.KubeContext := c;
           daemon.Namespace := n |}) /\
  daemon.NewIdentifier SafeContainerName name c "" =
    Err (errors_New "daemon identifier must have a namespace").
Proof.
  split; [|reflexivity].
  intros Hn. unfold daemon.NewIdentifier.
  rewrite bool_decide_eq_false_2 by assumption.
  rewrite (bool_decide_eq_true_2 ("" = "")) by reflexivity.
  by case_bool_decide.
Qed.

(** ** Committing the flags of a request *)

Section commit.

Variable AsCSV : list string -> string.
Variable syntax_Parse : string -> option (string * string).
Variable environ : gmap string string.

Local Abbreviation Commit := (daemon.CommitFlags AsCSV syntax_Parse environ).

Lemma VisitAll_commit_flag_rest (fs : list pflag.Flag) (cr : daemon.Request) :
  let cr' := pflag.VisitAll fs (daemon.commit_flag AsCSV) cr in
  daemon.Docker cr' = daemon.Docker cr /\
  daemon.Use cr' = daemon.Use cr /\
  daemon.kubeFlagSet cr' = daemon.kubeFlagSet cr.
Proof.
  unfold pflag.VisitAll. revert cr.
  induction fs as [|f fs IH]; intros cr; simpl; [done|].
  destruct (IH (daemon.commit_flag AsCSV cr f)) as (-> & -> & ->).
  unfold daemon.commit_flag. by destruct (pflag.Changed f).
Qed.

Lemma VisitAll_commit_flag_unchanged (fs : list pflag.Flag) (cr : daemon.Request)
    (k : string) :
  (forall f, f ∈ fs -> pflag.Name f = k -> pflag.Changed f = false) ->
  daemon.KubeFlags (pflag.VisitAll fs (daemon.commit_flag AsCSV) cr) !! k =
  daemon.KubeFlags cr !! k.
Proof.
  unfold pflag.VisitAll. revert cr.
  induction fs as [|f fs IH]; intros cr Hfs; simpl; [done|].
  rewrite IH by (intros g Hg; apply Hfs; by right).
  unfold daemon.commit_flag.
  destruct (pflag.Changed f) eqn:Hc; [|done].
  unfold daemon.KubeFlags, daemon.set_KubeFlag; simpl.
  apply lookup_insert_ne. intros Hk.
  specialize (Hfs f (list_elem_of_here _ _) Hk). congruence.
Qed.

Lemma VisitAll_commit_flag_inserted (fs : list pflag.Flag) (cr : daemon.Request)
    (k : string) :
  is_Some (daemon.KubeFlags (pflag.VisitAll fs (daemon.commit_flag AsCSV) cr) !! k) ->
  is_Some (daemon.KubeFlags cr !! k) \/
  exists f, f ∈ fs /\ pflag.Name f = k /\ pflag.Changed f = true.
Proof.
  unfold pflag.VisitAll. revert cr.
  induction fs as [|f fs IH]; intros cr Hk; simpl in *; [by left|].
  destruct (IH _ Hk) as [Hin|(g & Hg & Hname & Hc)].
  - unfold daemon.commit_flag in Hin.
    destruct (pflag.Changed f) eqn:Hc; [|by left].
    unfold daemon.KubeFlags, daemon.set_KubeFlag in Hin; simpl in Hin.
    destruct (decide (pflag.Name f = k)) as [Heq|Hne].
    + right. exists f. split; [by left|done].
    + rewrite lookup_insert_ne in Hin by done. by left.
  - right. exists g. split; [by right|done].
Qed.

Lemma addKubeconfigEnv_KubeFlags (cr : daemon.Request) :
  daemon.KubeFlags (daemon.addKubeconfigEnv environ cr) = daemon.KubeFlags cr.
Proof.
  unfold daemon.addKubeconfigEnv, daemon.addEnv, daemon.os_LookupEnv.
  by destruct (environ !! "KUBECONFIG"),
    (environ !! "GOOGLE_APPLICATION_CREDENTIALS").
Qed.

Lemma setGlobalConnectFlags_Environment (cr : daemon.Request) (cmd : daemon.Command) :
  daemon.Environment (daemon.setGlobalConnectFlags syntax_Parse cr cmd).2 =
  daemon.Environment cr.
Proof.
  unfold daemon.setGlobalConnectFlags.
  destruct (daemon.Flag cmd global.FlagContext) as [[? ? []]|];
    destruct (daemon.Flag cmd global.FlagDocker) as [[? ? []]|];
    destruct (daemon.Flag cmd global.FlagUse) as [[? v []]|]; simpl; try done;
    by destruct (regexp.Compile syntax_Parse (pflag.String v)).
Qed.

Lemma setGlobalConnectFlags_KubeFlags (cr : daemon.Request) (cmd : daemon.Command) :
  daemon.KubeFlags (daemon.setGlobalConnectFlags syntax_Parse cr cmd).2 =
  match daemon.Flag cmd global.FlagContext with
  | Some f =>
      if pflag.Changed f
      then <[global.FlagContext := pflag.String (pflag.Value f)]> (daemon.KubeFlags cr)
      else daemon.KubeFlags cr
  | None => daemon.KubeFlags cr
  end.
Proof.
  unfold daemon.setGlobalConnectFlags.
  destruct (daemon.Flag cmd global.FlagContext) as [[? ? []]|];
    destruct (daemon.Flag cmd global.FlagDocker) as [[? ? []]|];
    destruct (daemon.Flag cmd global.FlagUse) as [[? v []]|]; simpl; try done;
    by destruct (regexp.Compile syntax_Parse (pflag.String v)).
Qed.

(** The request that [CommitFlags] leaves behind is the one that
    [setGlobalConnectFlags] leaves behind, whether or not it fails. *)
Lemma CommitFlags_request (cr : daemon.Request) (cmd : daemon.Command) :
  (Commit cr cmd).1.2 =
  (daemon.setGlobalConnectFlags syntax_Parse
     (daemon.addKubeconfigEnv environ
        (pflag.VisitAll (daemon.kubeFlagSet cr) (daemon.commit_flag AsCSV) cr))
     cmd).2 /\
  (Commit cr cmd).1.1 =
  (daemon.setGlobalConnectFlags syntax_Parse
     (daemon.addKubeconfigEnv environ
        (pflag.VisitAll (daemon.kubeFlagSet cr) (daemon.commit_flag AsCSV) cr))
     cmd).1.
Proof.
  unfold daemon.CommitFlags.
  by destruct (daemon.setGlobalConnectFlags _ _ _) as [[e|] cr'].
Qed.

(** C5: after [CommitFlags] the propagation map records [KUBECONFIG]
    under exactly one of two keys: under [-KUBECONFIG] with the empty
    value when the variable is unset, under [KUBECONFIG] with its value
    when it is set. *)
Theorem CommitFlags_captures_KUBECONFIG (cr : daemon.Request) (cmd : daemon.Command) :
  let env' := daemon.Environment (Commit cr cmd).1.2 in
  match environ !! "KUBECONFIG" with
  | None => env' !! "-KUBECONFIG" = Some "" /\ env' !! "KUBECONFIG" = None
  | Some v => env' !! "KUBECONFIG" = Some v /\ env' !! "-KUBECONFIG" = None
  end.
Proof.
  intros env'. subst env'.
  destruct (CommitFlags_request cr cmd) as [-> _].
  rewrite setGlobalConnectFlags_Environment.
  unfold daemon.addKubeconfigEnv, daemon.addEnv, daemon.os_LookupEnv.
  destruct (environ !! "KUBECONFIG") as [v|],
    (environ !! "GOOGLE_APPLICATION_CREDENTIALS") as [g|];
    unfold daemon.Environment, daemon.set_Environment; simpl;
    split; by simplify_map_eq.
Qed.

(** C9: [CommitFlags] touches an entry of [KubeFlags] only under the
    name of a Kubernetes flag that the user changed, or under [context]
    when the global context flag was changed; started from an empty map,
    every entry it holds afterwards is one of those. *)
Theorem CommitFlags_KubeFlags_only_changed
    (cr : daemon.Request) (cmd : daemon.Command) (k : string) :
  let cr' := (Commit cr cmd).1.2 in
  (~ readings.changed_kube_flag cr k ->
   ~ readings.changed_global_context cmd k ->
   daemon.KubeFlags cr' !! k = daemon.KubeFlags cr !! k) /\
  (daemon.KubeFlags cr = ∅ ->
   is_Some (daemon.KubeFlags cr' !! k) ->
   readings.changed_kube_flag cr k \/ readings.changed_global_context cmd k).
Proof.
  intros cr'. subst cr'.
  destruct (CommitFlags_request cr cmd) as [-> _].
  rewrite setGlobalConnectFlags_KubeFlags, addKubeconfigEnv_KubeFlags.
  split.
  - intros Hkube Hglobal.
    assert (Hloop :
      daemon.KubeFlags
        (pflag.VisitAll (daemon.kubeFlagSet cr) (daemon.commit_flag AsCSV) cr) !! k =
      daemon.KubeFlags cr !! k).
    { apply VisitAll_commit_flag_unchanged. intros f Hf Hname.
      destruct (pflag.Changed f) eqn:Hc; [|done].
      exfalso. apply Hkube. by exists f. }
    destruct (daemon.Flag cmd global.FlagContext) as [f|] eqn:Hflag; [|done].
    destruct (pflag.Changed f) eqn:Hc; [|done].
    rewrite lookup_insert_ne; [done|].
    intros Hk. apply Hglobal. split; [done|]. by exists f.
  - intros Hempty Hk.
    assert (Hloop :
      is_Some (daemon.KubeFlags
        (pflag.VisitAll (daemon.kubeFlagSet cr) (daemon.commit_flag AsCSV) cr) !! k) ->
      readings.changed_kube_flag cr k).
    { intros Hin. apply VisitAll_commit_flag_inserted in Hin as [Hin|Hin]; [|done].
      rewrite Hempty, lookup_empty in Hin. by destruct Hin. }
    destruct (daemon.Flag cmd global.FlagContext) as [f|] eqn:Hflag; [|by left; auto].
    destruct (pflag.Changed f) eqn:Hc; [|by left; auto].
    destruct (decide (global.FlagContext = k)) as [Heq|Hne].
    + right. split; [done|]. by exists f.
    + rewrite lookup_insert_ne in Hk by done. left; auto.
Qed.

(** C3, as the code has it: with a changed [--use] flag whose value the
    parser rejects, [CommitFlags] fails with the syntax error of the
    parser itself, which carries no classification, and leaves no matcher
    on the request; with a value that the parser accepts it succeeds and
    stores the compiled matcher on the request. *)
Theorem CommitFlags_use_flag
    (cr : daemon.Request) (cmd : daemon.Command) (useFlag : pflag.Flag) :
  daemon.Flag cmd global.FlagUse = Some useFlag ->
  pflag.Changed useFlag = true ->
  let pattern := pflag.String (pflag.Value useFlag) in
  match syntax_Parse pattern with
  | Some (code, bad) =>
      (Commit cr cmd).1.1 = Some (syntax_Error code bad) /\
      errcat.GetCategory (syntax_Error code bad) = None /\
      daemon.Use (Commit cr cmd).1.2 = None
  | None =>
      (Commit cr cmd).1.1 = None /\
      daemon.Use (Commit cr cmd).1.2 = Some {| regexp.expr := pattern |}
  end.
Proof.
  intros Hflag Hchanged pattern.
  destruct (CommitFlags_request cr cmd) as [-> ->].
  unfold daemon.setGlobalConnectFlags. rewrite Hflag, Hchanged.
  unfold regexp.Compile. fold pattern.
  by destruct (syntax_Parse pattern) as [[code bad]|].
Qed.

End commit.

(** ** Resolving the kubeconfig *)

Section kubeconfig.

Variable json_Unmarshal : string -> result client.KubeconfigExtension.

(** C1, as the code has it: when the kubeconfig resolves and the
    extension of its cluster parses, the manager namespace is the first
    non-empty value among the explicit override, the value of the cluster
    extension and the environment variable, in this order, and the global
    default when all three are empty. *)
Theorem newKubeconfig_manager_namespace
    (c : client.context) (flagMap : gmap string string) (override : string)
    (configFlags : client.ConfigFlags_) (config : client.api.Config)
    (ns : string * bool) (ctx : client.api.Context) (cluster : client.api.Cluster_)
    (restConfig : client.rest_Config) (raw : string)
    (ext : client.KubeconfigExtension) :
  let loader := client.ToRawKubeConfigLoader configFlags in
  let ctxName :=
    if bool_decide (client.index flagMap "context" = "")
    then client.api.CurrentContext config else client.index flagMap "context" in
  client.RawConfig loader = Ok config ->
  size (client.api.Contexts config) ≠ 0 ->
  client.loader_Namespace loader = Ok ns ->
  client.api.Contexts config !! ctxName = Some ctx ->
  client.api.Clusters config !! client.api.Cluster ctx = Some cluster ->
  client.loader_ClientConfig loader = Ok restConfig ->
  client.api.Extensions cluster !! client.configExtension = Some (client.api.Unknown raw) ->
  json_Unmarshal raw = Ok ext ->
  exists k : client.Kubeconfig,
    client.newKubeconfig json_Unmarshal c flagMap override configFlags = Ok k /\
    client.GetManagerNamespace k =
      Some (readings.first_nonempty
              [override; readings.extension_namespace ext;
               client.ManagerNamespace (client.GetEnv c)]
              (client.DefaultManagerNamespace (client.GetConfig_Cluster c))).
Proof.
  intros loader ctxName Hraw Hsize Hns Hctx Hcluster Hrest Hext Hjson.
  unfold client.newKubeconfig. fold loader.
  rewrite Hraw; simpl.
  rewrite bool_decide_eq_false_2 by assumption.
  rewrite Hns; simpl. fold ctxName. rewrite Hctx, Hcluster, Hrest; simpl.
  rewrite Hext, Hjson; simpl.
  eexists; split; [reflexivity|].
  unfold client.GetManagerNamespace, readings.extension_namespace; simpl.
  f_equal.
  destruct (client.Manager ext) as [[m]|]; simpl;
    repeat (case_bool_decide; simpl in *); congruence.
Qed.

End kubeconfig.

(** ** The root daemon *)

Section root_daemon.

Variable filepath_Join : string -> string -> string.
Context {W : Type}.
Variable h : connect.handler W.

(** C4: when the probe of the root daemon socket answers running and no
    error, ensuring that the root daemon runs returns success, and its
    trace holds no spawn: it holds at most the probe itself. *)
Theorem ensureRootDaemonRunning_already_running
    (ctx : connect.context) (w w' : W) :
  h _ (connect.socket_IsRunning (connect.RootDaemonPath ctx)) w = ((true, None), w') ->
  exists (w'' : W) (tr : list connect.event),
    connect.run h (connect.ensureRootDaemonRunning filepath_Join ctx) w = (None, w'', tr) /\
    connect.spawn_count tr = 0 /\
    (tr = [] \/ tr = [connect.Called (connect.socket_IsRunning (connect.RootDaemonPath ctx))]).
Proof.
  intros Hprobe. unfold connect.run, connect.ensureRootDaemonRunning.
  destruct (match connect.GetUserClient ctx with
            | Some ud => connect.Remote ud
            | None => false
            end).
  { exists w, []. simpl. auto. }
  destruct (match connect.GetRequest ctx with
            | Some cr => daemon.Docker cr
            | None => false
            end).
  { exists w, []. simpl. auto. }
  case_bool_decide.
  { exists w, []. simpl. auto. }
  simpl. rewrite Hprobe. simpl.
  exists w', [connect.Called (connect.socket_IsRunning (connect.RootDaemonPath ctx))].
  auto.
Qed.

(** C2, as the code has it: in a disconnect with full teardown whose
    user daemon part went well and whose wait for the root daemon socket
    to vanish failed, a failure to dial the root daemon is the error that
    [Disconnect] returns, a failure of the [Quit] call is returned wrapped
    as the error when quitting the root daemon, and [Disconnect] succeeds
    only when both the dial and the [Quit] call succeed. *)
Theorem Disconnect_fallback_failure_is_returned
    (ctx : connect.context) (w w1 w2 : W) (ud waited : option error) :
  h _ (connect.UserDaemonDisconnect true) w = (ud, w1) ->
  ud = None \/ errors.Is_ErrNoUserDaemon ud = true ->
  h _ (connect.socket_WaitUntilVanishes "root daemon" (connect.RootDaemonPath ctx)
         (5 * connect.Second)) w1 = (waited, w2) ->
  waited ≠ None ->
  match h _ (connect.socket_Dial (connect.RootDaemonPath ctx)) w2 with
  | (Err dial_err, w3) =>
      (connect.run h (connect.Disconnect ctx true) w).1 = (Some dial_err, w3)
  | (Ok conn, w3) =>
      match h _ (connect.DaemonClient_Quit conn) w3 with
      | (Some quit_err, w4) =>
          (connect.run h (connect.Disconnect ctx true) w).1 =
            (Some (fmt_Errorf_w "error when quitting root daemon: %w" [] quit_err), w4)
      | (None, w4) =>
          (connect.run h (connect.Disconnect ctx true) w).1 = (None, w4)
      end
  end.
Proof.
  intros Hud Hfine Hwait Hfailed.
  unfold connect.run, connect.Disconnect. simpl. rewrite Hud.
  assert (Hfilter : (if errors.Is_ErrNoUserDaemon ud then None else ud) = None).
  { destruct Hfine as [->| ->]; reflexivity. }
  rewrite Hfilter. simpl. rewrite Hwait.
  destruct waited as [terr|]; [|done]. simpl.
  destruct (h _ (connect.socket_Dial (connect.RootDaemonPath ctx)) w2) as [[conn|derr] w3];
    simpl; [|reflexivity].
  by destruct (h _ (connect.DaemonClient_Quit conn) w3) as [[qerr|] w4].
Qed.

End root_daemon.

(** * Concrete runs *)

(** ** The manager namespace *)

(** C1 fails as stated: with an empty explicit override, the environment
    value y and the extension value z, the resolved manager namespace is z,
    not the y that the stated precedence gives. *)
Lemma newKubeconfig_extension_beats_environment :
  readings.spec_manager_namespace "" "y" "z" "ambassador" = "y" /\
  exists k : client.Kubeconfig,
    client.newKubeconfig doubles.json_Unmarshal doubles.context_env_y ∅ ""
      doubles.configFlags_z = Ok k /\
    client.GetManagerNamespace k = Some "z" /\
    client.GetManagerNamespace k ≠
      Some (readings.spec_manager_namespace "" "y" "z" "ambassador").
Proof.
  split; [reflexivity|].
  eexists. split; [vm_compute; reflexivity|].
  split; [reflexivity|]. vm_compute. discriminate.
Qed.

Lemma newKubeconfig_manager_namespace_witness :
  exists k : client.Kubeconfig,
    client.newKubeconfig doubles.json_Unmarshal doubles.context_env_y ∅ ""
      doubles.configFlags_z = Ok k /\
    client.GetManagerNamespace k = Some "z".
Proof.
  apply (newKubeconfig_manager_namespace doubles.json_Unmarshal
           doubles.context_env_y ∅ "" doubles.configFlags_z doubles.config_z
           ("default", false) {| client.api.Cluster := "dev-cluster" |}
           doubles.cluster_z doubles.rest_z doubles.raw_manager_z
           {| client.DNS := None; client.AlsoProxy := []; client.NeverProxy := [];
              client.Manager := Some {| client.mc_Namespace := "z" |} |}).
  - reflexivity.
  - vm_compute. discriminate.
  - reflexivity.
  - vm_compute. reflexivity.
  - vm_compute. reflexivity.
  - reflexivity.
  - vm_compute. reflexivity.
  - vm_compute. reflexivity.
Defined.

(** ** The remote extension *)

Lemma merge_LocalIP_fill_only_witness :
  client.LocalIP
    (readings.local_DNS
       (client.AddRemoteKubeConfigExtension doubles.yaml_Unmarshal
          (doubles.kubeconfig_with (Some doubles.dns_local_set))
          doubles.payload_text).2) = doubles.ipv4 127 0 0 53 /\
  client.LocalIP
    (readings.local_DNS
       (client.AddRemoteKubeConfigExtension doubles.yaml_Unmarshal
          (doubles.kubeconfig_with None) doubles.payload_text).2) =
    doubles.ipv4 10 0 0 53.
Proof.
  split.
  - apply (proj1 (merge_LocalIP_fill_only doubles.yaml_Unmarshal
                    (doubles.kubeconfig_with (Some doubles.dns_local_set))
                    doubles.payload_text)).
    vm_compute. discriminate.
  - apply (proj2 (merge_LocalIP_fill_only doubles.yaml_Unmarshal
                    (doubles.kubeconfig_with None) doubles.payload_text)
             {| client.remote_DNS := Some doubles.payload_dns;
                client.remote_Routing := None |}
             doubles.payload_dns).
    + reflexivity.
    + vm_compute. reflexivity.
    + reflexivity.
Defined.

(** ** The identifier *)

Lemma NewIdentifier_default_name_witness :
  daemon.NewIdentifier doubles.SafeContainerName "" "dev" "default" =
    Ok {| daemon.Name := "dev-default"; daemon.KubeContext := "dev";
          daemon.Namespace := "default" |} /\
  daemon.NewIdentifier doubles.SafeContainerName "" "" "default" =
    Ok {| daemon.Name := "in-cluster-default"; daemon.KubeContext := "";
          daemon.Namespace := "default" |}.
Proof.
  split.
  - apply (proj1 (NewIdentifier_default_name doubles.SafeContainerName "" "dev" "default")).
    discriminate.
  - apply (proj1 (NewIdentifier_default_name doubles.SafeContainerName "" "" "default")).
    discriminate.
Defined.

(** ** Committing flags *)

(** C3 fails as stated: committing a changed [--use] flag whose value is
    one opening parenthesis fails, and the error returned is the syntax
    error of the parser, which carries neither the user nor the
    configuration classification. *)
Lemma CommitFlags_use_error_unclassified :
  exists e : error,
    (daemon.CommitFlags doubles.AsCSV doubles.syntax_Parse ∅ doubles.request
       (doubles.command_use "(")).1.1 = Some e /\
    e = syntax_Error "missing closing )" "(" /\
    ~ errcat.InvalidConfig e.
Proof.
  eexists. split; [vm_compute; reflexivity|].
  split; [reflexivity|].
  unfold errcat.InvalidConfig. simpl. intros [H|H]; discriminate H.
Qed.

Lemma CommitFlags_use_flag_witness :
  (daemon.CommitFlags doubles.AsCSV doubles.syntax_Parse ∅ doubles.request
     (doubles.command_use "(")).1.1 = Some (syntax_Error "missing closing )" "(") /\
  (daemon.CommitFlags doubles.AsCSV doubles.syntax_Parse ∅ doubles.request
     (doubles.command_use "^dev-.*$")).1.1 = None /\
  daemon.Use
    (daemon.CommitFlags doubles.AsCSV doubles.syntax_Parse ∅ doubles.request
       (doubles.command_use "^dev-.*$")).1.2 = Some {| regexp.expr := "^dev-.*$" |}.
Proof.
  pose proof (CommitFlags_use_flag doubles.AsCSV doubles.syntax_Parse ∅
                doubles.request (doubles.command_use "(")
                {| pflag.Name := global.FlagUse; pflag.Value := doubles.string_value "(";
                   pflag.Changed := true |}
                ltac:(vm_compute; reflexivity) eq_refl) as Hbad.
  pose proof (CommitFlags_use_flag doubles.AsCSV doubles.syntax_Parse ∅
                doubles.request (doubles.command_use "^dev-.*$")
                {| pflag.Name := global.FlagUse;
                   pflag.Value := doubles.string_value "^dev-.*$";
                   pflag.Changed := true |}
                ltac:(vm_compute; reflexivity) eq_refl) as Hgood.
  simpl in Hbad, Hgood.
  split; [exact (proj1 Hbad)|exact Hgood].
Defined.

Lemma CommitFlags_KubeFlags_only_changed_witness :
  daemon.KubeFlags
    (daemon.CommitFlags doubles.AsCSV doubles.syntax_Parse ∅ doubles.request
       (doubles.command_use "^dev-.*$")).1.2 !! "request-timeout" = None.
Proof.
  change (@None string) with (daemon.KubeFlags doubles.request !! "request-timeout").
  apply (proj1 (CommitFlags_KubeFlags_only_changed doubles.AsCSV doubles.syntax_Parse ∅
                  doubles.request (doubles.command_use "^dev-.*$") "request-timeout")).
  - intros (f & Hf & Hname & Hchanged).
    unfold doubles.request, doubles.kubeFlags_namespace_only in Hf; simpl in Hf.
    apply elem_of_cons in Hf as [->|Hf]; [discriminate Hname|].
    apply elem_of_cons in Hf as [->|Hf]; [discriminate Hchanged|].
    by apply elem_of_nil in Hf.
  - intros [Hk _]. discriminate Hk.
Defined.

(** ** The root daemon *)

Lemma ensureRootDaemonRunning_already_running_witness :
  exists (n : nat) (tr : list connect.event),
    connect.run (doubles.system true None (Err doubles.dial_failed) None)
      (connect.ensureRootDaemonRunning doubles.filepath_Join doubles.connect_context) 0 =
      (None, n, tr) /\
    connect.spawn_count tr = 0 /\
    (tr = [] \/
     tr = [connect.Called
             (connect.socket_IsRunning (connect.RootDaemonPath doubles.connect_context))]).
Proof.
  apply (ensureRootDaemonRunning_already_running doubles.filepath_Join
           (doubles.system true None (Err doubles.dial_failed) None)
           doubles.connect_context 0 1).
  reflexivity.
Defined.

(** C2 fails as stated: in a disconnect with full teardown where the root
    daemon socket does not vanish and the fallback dial fails, the error of
    the dial is the error that [Disconnect] returns. *)
Lemma Disconnect_returns_dial_failure :
  (connect.run
     (doubles.system true (Some doubles.timed_out) (Err doubles.dial_failed) None)
     (connect.Disconnect doubles.connect_context true) 0).1.1 = Some doubles.dial_failed /\
  (connect.run
     (doubles.system true (Some doubles.timed_out) (Err doubles.dial_failed) None)
     (connect.Disconnect doubles.connect_context true) 0).1.1 ≠ None.
Proof.
  split; [reflexivity|]. vm_compute. discriminate.
Qed.

Lemma Disconnect_fallback_failure_is_returned_witness :
  (connect.run
     (doubles.system true (Some doubles.timed_out) (Err doubles.dial_failed) None)
     (connect.Disconnect doubles.connect_context true) 0).1 =
    (Some doubles.dial_failed, 3).
Proof.
  apply (Disconnect_fallback_failure_is_returned
           (doubles.system true (Some doubles.timed_out) (Err doubles.dial_failed) None)
           doubles.connect_context 0 1 2 None (Some doubles.timed_out)).
  - reflexivity.
  - left. reflexivity.
  - reflexivity.
  - discriminate.
Defined.

(** * Further properties *)

(** ** Launching and stopping the root daemon *)

Section launching.

Variable filepath_Join : string -> string -> string.
Context {W : Type}.
Variable h : connect.handler W.

Lemma run_from_bind {A B : Type} (p : connect.prog A) (f : A -> connect.prog B)
    (w : W) (tr : list connect.event) :
  connect.run_from h (connect.bind p f) w tr =
  let '(a, w1, tr1) := connect.run_from h p w tr in connect.run_from h (f a) w1 tr1.
Proof.
  revert w tr. induction p as [a|X c k IH]; intros w tr; simpl; [done|].
  destruct (h X c w) as [x w']. apply IH.
Qed.

(** The calls of a run are appended to the trace that it starts from. *)
Lemma run_from_trace {A : Type} (p : connect.prog A) (w : W) (tr : list connect.event) :
  connect.run_from h p w tr =
  let '(a, w1, tr1) := connect.run h p w in (a, w1, tr ++ tr1).
Proof.
  unfold connect.run. revert w tr.
  assert (Hgen : forall (w : W) (tr0 tr : list connect.event),
            connect.run_from h p w (tr ++ tr0) =
            let '(a, w1, tr1) := connect.run_from h p w tr0 in (a, w1, tr ++ tr1)).
  { induction p as [a|X c k IH]; intros w tr0 tr; simpl; [done|].
    destruct (h X c w) as [x w']. rewrite <- IH. by rewrite app_assoc. }
  intros w tr. specialize (Hgen w [] tr). by rewrite app_nil_r in Hgen.
Qed.

(** Case analysis on the next answer of the handler, and on the value
    that the program branches on. *)
Ltac answer :=
  match goal with
  | |- context [h ?X ?c ?w] =>
      let x := fresh "x" in
      let w' := fresh "w" in
      destruct (h X c w) as [x w'] eqn:?; simpl
  end.

Ltac branch :=
  match goal with
  | |- context [match ?x with _ => _ end] => is_var x; destruct x; simpl
  | |- context [if ?b then _ else _] => destruct b eqn:?; simpl
  end.

(** X1: whatever the system answers, ensuring that the root daemon runs
    spawns it at most once. *)
Theorem ensureRootDaemonRunning_spawns_at_most_once (ctx : connect.context) (w : W) :
  connect.spawn_count
    (connect.run h (connect.ensureRootDaemonRunning filepath_Join ctx) w).2 <= 1.
Proof.
  unfold connect.run, connect.ensureRootDaemonRunning, connect.launchDaemon.
  repeat (first [answer | branch]); vm_compute; lia.
Qed.

(** X2: when the user daemon is remote, the request asks for a daemon in
    a container, or a user daemon address is configured, ensuring that the
    root daemon runs succeeds without a single call: the socket is not even
    probed. *)
Theorem ensureRootDaemonRunning_managed_elsewhere (ctx : connect.context) (w : W) :
  readings.managed_elsewhere ctx = true ->
  connect.run h (connect.ensureRootDaemonRunning filepath_Join ctx) w = (None, w, []).
Proof.
  unfold readings.managed_elsewhere, connect.run, connect.ensureRootDaemonRunning.
  intros Hguard.
  destruct (match connect.GetUserClient ctx with
            | Some ud => connect.Remote ud
            | None => false
            end); [done|].
  destruct (match connect.GetRequest ctx with
            | Some cr => daemon.Docker cr
            | None => false
            end); [done|].
  simpl in Hguard. by rewrite Hguard.
Qed.

(** X3: an error of the socket probe is returned as it is, whatever the
    probe says about the socket, and nothing is launched. *)
Theorem ensureRootDaemonRunning_probe_error
    (ctx : connect.context) (w w' : W) (running : bool) (e : error) :
  readings.managed_elsewhere ctx = false ->
  h _ (connect.socket_IsRunning (connect.RootDaemonPath ctx)) w = ((running, Some e), w') ->
  connect.run h (connect.ensureRootDaemonRunning filepath_Join ctx) w =
    (Some e, w', [readings.ev_probe ctx]).
Proof.
  unfold readings.managed_elsewhere, connect.run, connect.ensureRootDaemonRunning.
  intros Hguard Hprobe.
  apply orb_false_elim in Hguard as [Hguard Haddr].
  apply orb_false_elim in Hguard as [-> ->].
  rewrite Haddr. simpl. rewrite Hprobe. simpl. done.
Qed.

(** X4: when the socket is not there, the daemon is launched; a failed
    launch is returned as a failure to launch the daemon service without
    waiting for the socket, and after a launch that went well the socket is
    awaited for ten seconds, a failed wait being returned as a daemon
    service that did not start. *)
Theorem ensureRootDaemonRunning_launches_then_waits
    (ctx : connect.context) (w w1 w2 : W) (launched : option error)
    (tr : list connect.event) :
  readings.managed_elsewhere ctx = false ->
  h _ (connect.socket_IsRunning (connect.RootDaemonPath ctx)) w = ((false, None), w1) ->
  connect.run h (connect.launchDaemon filepath_Join ctx (connect.GetRequest ctx)) w1 =
    (launched, w2, tr) ->
  connect.run h (connect.ensureRootDaemonRunning filepath_Join ctx) w =
    match launched with
    | Some e =>
        (Some (fmt_Errorf_w "failed to launch the daemon service: %w" [] e), w2,
         readings.ev_probe ctx :: tr)
    | None =>
        let '(waited, w3) :=
          h _ (connect.socket_WaitUntilRunning "daemon" (connect.RootDaemonPath ctx)
                 (10 * connect.Second)) w2 in
        (readings.wrapped "daemon service did not start: %w" waited, w3,
         readings.ev_probe ctx :: tr ++ [readings.ev_wait_running ctx])
    end.
Proof.
  unfold readings.managed_elsewhere.
  intros Hguard Hprobe Hlaunch.
  apply orb_false_elim in Hguard as [Hguard Haddr].
  apply orb_false_elim in Hguard as [Hremote Hdocker].
  unfold connect.run at 1. unfold connect.ensureRootDaemonRunning.
  rewrite Hremote, Hdocker, Haddr.
  cbn [connect.bind connect.perform connect.run_from]. rewrite Hprobe.
  simpl bool_decide. cbn [orb app].
  rewrite run_from_bind, run_from_trace, Hlaunch.
  destruct launched as [e|]; simpl; [done|].
  by destruct (h _ _ w2) as [[e|] w3].
Qed.


(** X6: without full teardown, and whenever the user daemon fails to
    disconnect with an error that is not the absence of the user daemon,
    [Disconnect] makes the one call to the user daemon and leaves the root
    daemon alone; the failure is returned as an error when quitting the
    connector, the absence of the user daemon is no error. *)
Theorem Disconnect_user_daemon_only
    (ctx : connect.context) (quitDaemons : bool) (w w1 : W) (ud : option error) :
  h _ (connect.UserDaemonDisconnect quitDaemons) w = (ud, w1) ->
  quitDaemons = false \/ (ud ≠ None /\ errors.Is_ErrNoUserDaemon ud = false) ->
  connect.run h (connect.Disconnect ctx quitDaemons) w =
    (if errors.Is_ErrNoUserDaemon ud then None
     else readings.wrapped "error when quitting connector: %w" ud,
     w1, [connect.Called (connect.UserDaemonDisconnect quitDaemons)]).
Proof.
  intros Hud Hcase. unfold connect.run, connect.Disconnect. simpl. rewrite Hud.
  destruct Hcase as [->|[Hsome Hnot]].
  - destruct (errors.Is_ErrNoUserDaemon ud); [done|]. by destruct ud.
  - rewrite Hnot. by destruct ud.
Qed.

(** X7: in a full teardown after a user daemon that disconnected, or was
    not there, a root daemon socket that vanishes in time ends the
    disconnect with success: the root daemon is neither dialed nor told to
    quit. *)
Theorem Disconnect_socket_vanished
    (ctx : connect.context) (w w1 w2 : W) (ud : option error) :
  h _ (connect.UserDaemonDisconnect true) w = (ud, w1) ->
  ud = None \/ errors.Is_ErrNoUserDaemon ud = true ->
  h _ (connect.socket_WaitUntilVanishes "root daemon" (connect.RootDaemonPath ctx)
         (5 * connect.Second)) w1 = (None, w2) ->
  connect.run h (connect.Disconnect ctx true) w =
    (None, w2,
     [connect.Called (connect.UserDaemonDisconnect true);
      connect.Called
        (connect.socket_WaitUntilVanishes "root daemon" (connect.RootDaemonPath ctx)
           (5 * connect.Second))]).
Proof.
  intros Hud Hfine Hwait. unfold connect.run, connect.Disconnect. simpl. rewrite Hud.
  assert (Hfilter : (if errors.Is_ErrNoUserDaemon ud then None else ud) = None).
  { destruct Hfine as [->| ->]; reflexivity. }
  rewrite Hfilter. simpl. by rewrite Hwait.
Qed.

End launching.

Section directories.

Variable filepath_Join : string -> string -> string.
Variable AppUserCacheDir : connect.context -> string.
Context {W : Type}.
Variable h : connect.handler W.


End directories.

(** ** Concrete runs of the root daemon functions *)

Lemma ensureRootDaemonRunning_managed_elsewhere_witness :
  connect.run (doubles.system false None (Err doubles.dial_failed) None)
    (connect.ensureRootDaemonRunning doubles.filepath_Join doubles.connect_context_remote)
    0 = (None, 0, []).
Proof.
  apply (ensureRootDaemonRunning_managed_elsewhere doubles.filepath_Join
           (doubles.system false None (Err doubles.dial_failed) None)
           doubles.connect_context_remote 0).
  reflexivity.
Defined.

Lemma ensureRootDaemonRunning_probe_error_witness :
  connect.run doubles.system_probe_fails
    (connect.ensureRootDaemonRunning doubles.filepath_Join doubles.connect_context) 0 =
    (Some doubles.probe_failed, 1, [readings.ev_probe doubles.connect_context]).
Proof.
  apply (ensureRootDaemonRunning_probe_error doubles.filepath_Join
           doubles.system_probe_fails doubles.connect_context 0 1 false
           doubles.probe_failed).
  - reflexivity.
  - reflexivity.
Defined.

Lemma ensureRootDaemonRunning_launches_then_waits_witness :
  (connect.run doubles.system_never_ready
     (connect.ensureRootDaemonRunning doubles.filepath_Join doubles.connect_context) 0).1 =
    (Some (fmt_Errorf_w "daemon service did not start: %w" [] doubles.never_ready), 5).
Proof.
  pose proof (ensureRootDaemonRunning_launches_then_waits doubles.filepath_Join
                doubles.system_never_ready doubles.connect_context 0 1 4 None
                [readings.ev_print;
                 readings.ev_stat "/home/dev/.cache/telepresence/logs/daemon.log";
                 readings.ev_spawn
                   (readings.daemon_command_line doubles.connect_context None)]
                eq_refl eq_refl eq_refl) as Hrun.
  simpl in Hrun. rewrite Hrun. reflexivity.
Defined.

Lemma Disconnect_user_daemon_only_witness :
  connect.run doubles.system_user_daemon_fails
    (connect.Disconnect doubles.connect_context true) 0 =
    (Some (fmt_Errorf_w "error when quitting connector: %w" [] doubles.user_daemon_failed),
     1, [connect.Called (connect.UserDaemonDisconnect true)]).
Proof.
  apply (Disconnect_user_daemon_only doubles.system_user_daemon_fails
           doubles.connect_context true 0 1 (Some doubles.user_daemon_failed)).
  - reflexivity.
  - right. split; [discriminate|reflexivity].
Defined.

Lemma Disconnect_socket_vanished_witness :
  connect.run (doubles.system true None (Err doubles.dial_failed) None)
    (connect.Disconnect doubles.connect_context true) 0 =
    (None, 2,
     [connect.Called (connect.UserDaemonDisconnect true);
      connect.Called
        (connect.socket_WaitUntilVanishes "root daemon"
           (connect.RootDaemonPath doubles.connect_context) (5 * connect.Second))]).
Proof.
  apply (Disconnect_socket_vanished
           (doubles.system true None (Err doubles.dial_failed) None)
           doubles.connect_context 0 1 2 None).
  - reflexivity.
  - by left.
  - reflexivity.
Defined.

(** ** Identifiers and requests, continued *)

Lemma string_length_app (s t : string) :
  String.length (s +:+ t) = String.length s + String.length t.
Proof. induction s as [|c s IH]; simpl; [done|]. by rewrite IH. Qed.

Lemma string_app_inv_tail (s1 s2 t : string) : s1 +:+ t = s2 +:+ t -> s1 = s2.
Proof.
  revert s2. induction s1 as [|c s1 IH]; intros [|c2 s2] Heq.
  - done.
  - apply (f_equal String.length) in Heq.
    rewrite !string_length_app in Heq. simpl in Heq. lia.
  - apply (f_equal String.length) in Heq.
    rewrite !string_length_app in Heq. simpl in Heq. lia.
  - change (String c (s1 +:+ t) = String c2 (s2 +:+ t)) in Heq.
    injection Heq as -> Heq. f_equal. by apply IH.
Qed.

(** X9: identifiers with different names have different info files and
    different container names. *)
Theorem InfoFileName_ContainerName_injective (id1 id2 : daemon.Identifier) :
  (daemon.InfoFileName id1 = daemon.InfoFileName id2 -> daemon.Name id1 = daemon.Name id2) /\
  (daemon.ContainerName id1 = daemon.ContainerName id2 -> daemon.Name id1 = daemon.Name id2).
Proof.
  unfold daemon.InfoFileName, daemon.ContainerName. split.
  - apply string_app_inv_tail.
  - intros Heq. by apply (inj (String.app "tp-")) in Heq.
Qed.

Lemma InfoFileName_ContainerName_injective_witness :
  daemon.Name {| daemon.Name := "dev-default"; daemon.KubeContext := "dev";
                 daemon.Namespace := "default" |} =
  daemon.Name {| daemon.Name := "dev-default"; daemon.KubeContext := "";
                 daemon.Namespace := "other" |}.
Proof.
  apply (proj1 (InfoFileName_ContainerName_injective
                  {| daemon.Name := "dev-default"; daemon.KubeContext := "dev";
                     daemon.Namespace := "default" |}
                  {| daemon.Name := "dev-default"; daemon.KubeContext := "";
                     daemon.Namespace := "other" |})).
  reflexivity.
Defined.

Section committing.

Variable AsCSV : list string -> string.
Variable syntax_Parse : string -> option (string * string).
Variable environ : gmap string string.

Local Abbreviation Commit := (daemon.CommitFlags AsCSV syntax_Parse environ).
Local Abbreviation visit fs cr := (pflag.VisitAll fs (daemon.commit_flag AsCSV) cr).

(** The visit of the flag set assigns to [KubeFlags] and to nothing
    else. *)
Lemma VisitAll_commit_flag_shape (fs : list pflag.Flag) (cr : daemon.Request) :
  visit fs cr =
  daemon.with_ConnectRequest cr
    (connector.with_KubeFlags (daemon.ConnectRequest cr) (daemon.KubeFlags (visit fs cr))).
Proof.
  unfold pflag.VisitAll. revert cr.
  induction fs as [|f fs IH]; intros cr; simpl.
  - by destruct cr as [[]].
  - rewrite IH at 1. unfold daemon.commit_flag.
    destruct (pflag.Changed f); [|done].
    by destruct cr as [[]].
Qed.

(** What the visit leaves under a key depends on the flag set alone, or
    is what was there before. *)
Lemma VisitAll_commit_flag_lookup (fs : list pflag.Flag) (k : string) :
  (exists v, forall cr, daemon.KubeFlags (visit fs cr) !! k = Some v) \/
  (forall cr, daemon.KubeFlags (visit fs cr) !! k = daemon.KubeFlags cr !! k).
Proof.
  unfold pflag.VisitAll.
  induction fs as [|f fs IH]; simpl; [by right|].
  destruct IH as [[v Hv]|Hsame].
  - left. exists v. intros cr. apply Hv.
  - destruct (pflag.Changed f) eqn:Hc.
    + destruct (decide (pflag.Name f = k)) as [<-|Hne].
      * left. eexists. intros cr. rewrite Hsame.
        unfold daemon.commit_flag. rewrite Hc.
        unfold daemon.KubeFlags, daemon.set_KubeFlag; simpl.
        apply lookup_insert_eq.
      * right. intros cr. rewrite Hsame.
        unfold daemon.commit_flag. rewrite Hc.
        unfold daemon.KubeFlags, daemon.set_KubeFlag; simpl.
        by apply lookup_insert_ne.
    + right. intros cr. rewrite Hsame.
      unfold daemon.commit_flag. by rewrite Hc.
Qed.

Lemma VisitAll_commit_flag_changed (fs : list pflag.Flag) (cr : daemon.Request)
    (f : pflag.Flag) :
  NoDup (pflag.Name <$> fs) ->
  f ∈ fs ->
  pflag.Changed f = true ->
  daemon.KubeFlags (visit fs cr) !! pflag.Name f =
  Some (match pflag.GetSlice (pflag.Value f) with
        | Some sl => AsCSV sl
        | None => pflag.String (pflag.Value f)
        end).
Proof.
  unfold pflag.VisitAll. revert cr.
  induction fs as [|g fs IH]; intros cr Hnodup Hin Hchanged; simpl.
  { by apply elem_of_nil in Hin. }
  rewrite fmap_cons in Hnodup. apply NoDup_cons in Hnodup as [Hfresh Hnodup].
  apply elem_of_cons in Hin as [<-|Hin].
  - pose proof (VisitAll_commit_flag_unchanged AsCSV fs
                  (daemon.commit_flag AsCSV cr f) (pflag.Name f)) as Hrest.
    unfold pflag.VisitAll in Hrest. rewrite Hrest.
    + unfold daemon.commit_flag. rewrite Hchanged.
      unfold daemon.KubeFlags, daemon.set_KubeFlag; simpl.
      apply lookup_insert_eq.
    + intros g Hg Hname. exfalso. apply Hfresh.
      rewrite <- Hname. apply list_elem_of_fmap. by exists g.
  - by apply IH.
Qed.

(** X10: a Kubernetes flag that the user changed is in [KubeFlags] after
    [CommitFlags] under its name, with its value rendered by the flag, or as
    comma separated values when the flag holds a slice; only the global
    context flag can take its place. *)
Theorem CommitFlags_records_changed_flag
    (cr : daemon.Request) (cmd : daemon.Command) (f : pflag.Flag) :
  NoDup (pflag.Name <$> daemon.kubeFlagSet cr) ->
  f ∈ daemon.kubeFlagSet cr ->
  pflag.Changed f = true ->
  ~ readings.changed_global_context cmd (pflag.Name f) ->
  daemon.KubeFlags (Commit cr cmd).1.2 !! pflag.Name f =
  Some (match pflag.GetSlice (pflag.Value f) with
        | Some sl => AsCSV sl
        | None => pflag.String (pflag.Value f)
        end).
Proof.
  intros Hnodup Hin Hchanged Hglobal.
  destruct (CommitFlags_request AsCSV syntax_Parse environ cr cmd) as [-> _].
  rewrite setGlobalConnectFlags_KubeFlags, addKubeconfigEnv_KubeFlags.
  pose proof (VisitAll_commit_flag_changed _ cr f Hnodup Hin Hchanged) as Hvisit.
  destruct (daemon.Flag cmd global.FlagContext) as [g|] eqn:Hflag; [|done].
  destruct (pflag.Changed g) eqn:Hg; [|done].
  rewrite lookup_insert_ne; [done|].
  intros Hname. apply Hglobal. split; [done|]. by exists g.
Qed.

Lemma Request_ext (a b : daemon.Request) :
  daemon.KubeFlags a = daemon.KubeFlags b ->
  daemon.Environment a = daemon.Environment b ->
  connector.Name (daemon.ConnectRequest a) = connector.Name (daemon.ConnectRequest b) ->
  connector.MappedNamespaces (daemon.ConnectRequest a) =
    connector.MappedNamespaces (daemon.ConnectRequest b) ->
  connector.AlsoProxy (daemon.ConnectRequest a) =
    connector.AlsoProxy (daemon.ConnectRequest b) ->
  connector.NeverProxy (daemon.ConnectRequest a) =
    connector.NeverProxy (daemon.ConnectRequest b) ->
  connector.ManagerNamespace (daemon.ConnectRequest a) =
    connector.ManagerNamespace (daemon.ConnectRequest b) ->
  connector.IsPodDaemon (daemon.ConnectRequest a) =
    connector.IsPodDaemon (daemon.ConnectRequest b) ->
  daemon.Docker a = daemon.Docker b ->
  daemon.Use a = daemon.Use b ->
  daemon.Implicit a = daemon.Implicit b ->
  daemon.kubeConfig a = daemon.kubeConfig b ->
  daemon.kubeFlagSet a = daemon.kubeFlagSet b ->
  daemon.UserDaemonProfilingPort a = daemon.UserDaemonProfilingPort b ->
  daemon.RootDaemonProfilingPort a = daemon.RootDaemonProfilingPort b ->
  a = b.
Proof.
  destruct a as [[]], b as [[]]. unfold daemon.KubeFlags, daemon.Environment. simpl.
  by intros -> -> -> -> -> -> -> -> -> -> -> -> -> -> ->.
Qed.

Lemma addKubeconfigEnv_Environment (cr cr0 : daemon.Request) :
  daemon.Environment (daemon.addKubeconfigEnv environ cr) =
  daemon.Environment (daemon.addKubeconfigEnv environ cr0).
Proof.
  unfold daemon.addKubeconfigEnv, daemon.addEnv, daemon.os_LookupEnv.
  by destruct (environ !! "KUBECONFIG"), (environ !! "GOOGLE_APPLICATION_CREDENTIALS").
Qed.

(** The fields that [CommitFlags] never assigns agree in [a] and [b]. *)
Local Abbreviation same_rest a b :=
  (connector.Name (daemon.ConnectRequest a) = connector.Name (daemon.ConnectRequest b) /\
   connector.MappedNamespaces (daemon.ConnectRequest a) =
     connector.MappedNamespaces (daemon.ConnectRequest b) /\
   connector.AlsoProxy (daemon.ConnectRequest a) =
     connector.AlsoProxy (daemon.ConnectRequest b) /\
   connector.NeverProxy (daemon.ConnectRequest a) =
     connector.NeverProxy (daemon.ConnectRequest b) /\
   connector.ManagerNamespace (daemon.ConnectRequest a) =
     connector.ManagerNamespace (daemon.ConnectRequest b) /\
   connector.IsPodDaemon (daemon.ConnectRequest a) =
     connector.IsPodDaemon (daemon.ConnectRequest b) /\
   daemon.Implicit a = daemon.Implicit b /\
   daemon.kubeFlagSet a = daemon.kubeFlagSet b /\
   daemon.UserDaemonProfilingPort a = daemon.UserDaemonProfilingPort b /\
   daemon.RootDaemonProfilingPort a = daemon.RootDaemonProfilingPort b).

Lemma VisitAll_commit_flag_other_fields (fs : list pflag.Flag) (cr : daemon.Request) :
  daemon.Docker (visit fs cr) = daemon.Docker cr /\
  daemon.Use (visit fs cr) = daemon.Use cr /\
  daemon.kubeConfig (visit fs cr) = daemon.kubeConfig cr /\
  same_rest (visit fs cr) cr.
Proof.
  rewrite VisitAll_commit_flag_shape.
  generalize (daemon.KubeFlags (visit fs cr)). intros M.
  destruct cr as [[]]; simpl. repeat split; reflexivity.
Qed.

Lemma addKubeconfigEnv_other_fields (cr : daemon.Request) :
  daemon.Docker (daemon.addKubeconfigEnv environ cr) = daemon.Docker cr /\
  daemon.Use (daemon.addKubeconfigEnv environ cr) = daemon.Use cr /\
  daemon.kubeConfig (daemon.addKubeconfigEnv environ cr) = daemon.kubeConfig cr /\
  same_rest (daemon.addKubeconfigEnv environ cr) cr.
Proof.
  unfold daemon.addKubeconfigEnv, daemon.addEnv, daemon.os_LookupEnv.
  destruct cr as [[]]; simpl.
  destruct (environ !! "KUBECONFIG"), (environ !! "GOOGLE_APPLICATION_CREDENTIALS");
    simpl; repeat split; reflexivity.
Qed.

Lemma setGlobalConnectFlags_fields (cr : daemon.Request) (cmd : daemon.Command) :
  let cr' := (daemon.setGlobalConnectFlags syntax_Parse cr cmd).2 in
  daemon.Docker cr' =
    match daemon.Flag cmd global.FlagDocker with
    | Some f =>
        if pflag.Changed f
        then default false (strconv.ParseBool (pflag.String (pflag.Value f)))
        else daemon.Docker cr
    | None => daemon.Docker cr
    end /\
  daemon.Use cr' =
    match daemon.Flag cmd global.FlagUse with
    | Some f =>
        if pflag.Changed f
        then match regexp.Compile syntax_Parse (pflag.String (pflag.Value f)) with
             | Ok re => Some re
             | Err _ => None
             end
        else daemon.Use cr
    | None => daemon.Use cr
    end /\
  daemon.kubeConfig cr' =
    match daemon.Flag cmd global.FlagContext with
    | Some f =>
        if pflag.Changed f
        then {| daemon.Context := Some (pflag.String (pflag.Value f)) |}
        else daemon.kubeConfig cr
    | None => daemon.kubeConfig cr
    end /\
  same_rest cr' cr.
Proof.
  unfold daemon.setGlobalConnectFlags.
  destruct cr as [[]]; simpl.
  destruct (daemon.Flag cmd global.FlagContext) as [[? ? []]|];
    destruct (daemon.Flag cmd global.FlagDocker) as [[? ? []]|];
    destruct (daemon.Flag cmd global.FlagUse) as [[? v []]|]; simpl;
    try destruct (regexp.Compile syntax_Parse (pflag.String v)); simpl;
    repeat split; reflexivity.
Qed.

(** What [CommitFlags] leaves in the fields of the request other than
    [KubeFlags]. *)
Lemma CommitFlags_fields (cr : daemon.Request) (cmd : daemon.Command) :
  let cr' := (Commit cr cmd).1.2 in
  daemon.Environment cr' = daemon.Environment (daemon.addKubeconfigEnv environ cr) /\
  daemon.Docker cr' =
    match daemon.Flag cmd global.FlagDocker with
    | Some f =>
        if pflag.Changed f
        then default false (strconv.ParseBool (pflag.String (pflag.Value f)))
        else daemon.Docker cr
    | None => daemon.Docker cr
    end /\
  daemon.Use cr' =
    match daemon.Flag cmd global.FlagUse with
    | Some f =>
        if pflag.Changed f
        then match regexp.Compile syntax_Parse (pflag.String (pflag.Value f)) with
             | Ok re => Some re
             | Err _ => None
             end
        else daemon.Use cr
    | None => daemon.Use cr
    end /\
  daemon.kubeConfig cr' =
    match daemon.Flag cmd global.FlagContext with
    | Some f =>
        if pflag.Changed f
        then {| daemon.Context := Some (pflag.String (pflag.Value f)) |}
        else daemon.kubeConfig cr
    | None => daemon.kubeConfig cr
    end /\
  same_rest cr' cr.
Proof.
  intros cr'. subst cr'.
  destruct (CommitFlags_request AsCSV syntax_Parse environ cr cmd) as [-> _].
  pose proof (VisitAll_commit_flag_other_fields (daemon.kubeFlagSet cr) cr)
    as (Hd1 & Hu1 & Hk1 & Hn1 & Hm1 & Ha1 & Hnp1 & Hmn1 & Hp1 & Hi1 & Hf1 & Hup1 & Hrp1).
  pose proof (addKubeconfigEnv_other_fields (visit (daemon.kubeFlagSet cr) cr))
    as (Hd2 & Hu2 & Hk2 & Hn2 & Hm2 & Ha2 & Hnp2 & Hmn2 & Hp2 & Hi2 & Hf2 & Hup2 & Hrp2).
  pose proof (setGlobalConnectFlags_fields
                (daemon.addKubeconfigEnv environ (visit (daemon.kubeFlagSet cr) cr)) cmd)
    as (Hd3 & Hu3 & Hk3 & Hn3 & Hm3 & Ha3 & Hnp3 & Hmn3 & Hp3 & Hi3 & Hf3 & Hup3 & Hrp3).
  rewrite setGlobalConnectFlags_Environment.
  rewrite Hd3, Hu3, Hk3, Hd2, Hu2, Hk2, Hd1, Hu1, Hk1.
  split; [apply addKubeconfigEnv_Environment|].
  repeat split; congruence.
Qed.

Lemma CommitFlags_KubeFlags (cr : daemon.Request) (cmd : daemon.Command) :
  daemon.KubeFlags (Commit cr cmd).1.2 =
  match daemon.Flag cmd global.FlagContext with
  | Some f =>
      if pflag.Changed f
      then <[global.FlagContext := pflag.String (pflag.Value f)]>
             (daemon.KubeFlags (visit (daemon.kubeFlagSet cr) cr))
      else daemon.KubeFlags (visit (daemon.kubeFlagSet cr) cr)
  | None => daemon.KubeFlags (visit (daemon.kubeFlagSet cr) cr)
  end.
Proof.
  destruct (CommitFlags_request AsCSV syntax_Parse environ cr cmd) as [-> _].
  by rewrite setGlobalConnectFlags_KubeFlags, addKubeconfigEnv_KubeFlags.
Qed.

Lemma CommitFlags_command (cr : daemon.Request) (cmd : daemon.Command) :
  (Commit cr cmd).2 =
  match (Commit cr cmd).1.1 with
  | Some _ => cmd
  | None => daemon.SetContext_WithValue cmd (Commit cr cmd).1.2
  end.
Proof.
  unfold daemon.CommitFlags.
  by destruct (daemon.setGlobalConnectFlags _ _ _) as [[e|] cr'].
Qed.

(** X11: committing the flags again changes nothing: the second
    [CommitFlags] returns the error, the request and the command of the
    first. *)
Theorem CommitFlags_idempotent (cr : daemon.Request) (cmd : daemon.Command) :
  Commit (Commit cr cmd).1.2 (Commit cr cmd).2 = Commit cr cmd.
Proof.
  assert (Hflags : forall name, daemon.Flag (Commit cr cmd).2 name = daemon.Flag cmd name).
  { intros name. unfold daemon.CommitFlags.
    by destruct (daemon.setGlobalConnectFlags _ _ _) as [[e|] cr']. }
  assert (Hrequest : (Commit (Commit cr cmd).1.2 (Commit cr cmd).2).1.2 = (Commit cr cmd).1.2).
  { destruct (CommitFlags_fields (Commit cr cmd).1.2 (Commit cr cmd).2)
      as (He & Hd & Hu & Hk & Hn & Hm & Ha & Hnp & Hmn & Hp & Hi & Hf & Hup & Hrp).
    destruct (CommitFlags_fields cr cmd)
      as (He1 & Hd1 & Hu1 & Hk1 & _ & _ & _ & _ & _ & _ & _ & Hf1 & _ & _).
    rewrite !Hflags in *.
    apply Request_ext; try assumption.
    - rewrite CommitFlags_KubeFlags, Hflags, Hf1.
      rewrite (CommitFlags_KubeFlags cr cmd).
      apply map_eq. intros k.
      destruct (VisitAll_commit_flag_lookup (daemon.kubeFlagSet cr) k) as [[v Hv]|Hsame].
      + destruct (daemon.Flag cmd global.FlagContext) as [[? ? []]|]; simpl;
          rewrite ?lookup_insert; try case_decide; rewrite ?Hv; done.
      + pose proof (Hsame (Commit cr cmd).1.2) as H2. pose proof (Hsame cr) as H1.
        rewrite (CommitFlags_KubeFlags cr cmd) in H2.
        destruct (daemon.Flag cmd global.FlagContext) as [[? ? []]|]; simpl in *;
          rewrite ?lookup_insert; try case_decide; try done;
          rewrite H2; rewrite ?lookup_insert_ne by done; done.
    - rewrite He, He1. apply addKubeconfigEnv_Environment.
    - rewrite Hd, Hd1. by destruct (daemon.Flag cmd global.FlagDocker) as [[? ? []]|].
    - rewrite Hu, Hu1. by destruct (daemon.Flag cmd global.FlagUse) as [[? ? []]|].
    - rewrite Hk, Hk1. by destruct (daemon.Flag cmd global.FlagContext) as [[? ? []]|]. }
  assert (Herror : (Commit (Commit cr cmd).1.2 (Commit cr cmd).2).1.1 = (Commit cr cmd).1.1).
  { destruct (CommitFlags_request AsCSV syntax_Parse environ
                (Commit cr cmd).1.2 (Commit cr cmd).2) as [_ ->].
    destruct (CommitFlags_request AsCSV syntax_Parse environ cr cmd) as [_ Herr].
    rewrite Herr. unfold daemon.setGlobalConnectFlags. rewrite !Hflags.
    destruct (daemon.Flag cmd global.FlagContext) as [[? ? []]|];
      destruct (daemon.Flag cmd global.FlagDocker) as [[? ? []]|];
      destruct (daemon.Flag cmd global.FlagUse) as [[? v []]|]; simpl; try done;
      by destruct (regexp.Compile syntax_Parse (pflag.String v)). }
  assert (Hcommand : (Commit (Commit cr cmd).1.2 (Commit cr cmd).2).2 = (Commit cr cmd).2).
  { rewrite (CommitFlags_command (Commit cr cmd).1.2 (Commit cr cmd).2).
    rewrite Herror, Hrequest.
    destruct ((Commit cr cmd).1.1) as [e|] eqn:Herr; [done|].
    rewrite (CommitFlags_command cr cmd), Herr. reflexivity. }
  destruct (Commit (Commit cr cmd).1.2 (Commit cr cmd).2) as [[e2 cr2] cmd2].
  destruct (Commit cr cmd) as [[e1 cr1] cmd1].
  simpl in *. by subst.
Qed.

(** X12: whatever the request held before, the propagation map holds
    exactly two entries after [CommitFlags], one for [KUBECONFIG] and one
    for [GOOGLE_APPLICATION_CREDENTIALS]; the latter is recorded under its
    name with its value when it is set, and under its name prefixed with a
    dash, with the empty value, when it is not. *)
Theorem CommitFlags_Environment_two_entries (cr : daemon.Request) (cmd : daemon.Command) :
  let env' := daemon.Environment (Commit cr cmd).1.2 in
  size env' = 2 /\
  match environ !! "GOOGLE_APPLICATION_CREDENTIALS" with
  | None =>
      env' !! "-GOOGLE_APPLICATION_CREDENTIALS" = Some "" /\
      env' !! "GOOGLE_APPLICATION_CREDENTIALS" = None
  | Some v =>
      env' !! "GOOGLE_APPLICATION_CREDENTIALS" = Some v /\
      env' !! "-GOOGLE_APPLICATION_CREDENTIALS" = None
  end.
Proof.
  intros env'. subst env'.
  destruct (CommitFlags_fields cr cmd) as (-> & _).
  unfold daemon.addKubeconfigEnv, daemon.addEnv, daemon.os_LookupEnv.
  destruct (environ !! "KUBECONFIG") as [v|],
    (environ !! "GOOGLE_APPLICATION_CREDENTIALS") as [g|];
    unfold daemon.Environment, daemon.set_Environment; simpl;
    (split; [|split; by simplify_map_eq]);
    rewrite !map_size_insert_None by (by simplify_map_eq);
    by rewrite map_size_empty.
Qed.

(** X13: [CommitFlags] fails exactly when a changed [--use] flag holds a
    pattern that the parser rejects.  When it fails the command is left as
    it was, with no request stored in its context; when it succeeds
    [GetRequest] finds the committed request in the context of the
    command. *)
Theorem CommitFlags_fails_only_on_use (cr : daemon.Request) (cmd : daemon.Command) :
  (Commit cr cmd).1.1 = readings.use_rejected syntax_Parse cmd /\
  match (Commit cr cmd).1.1 with
  | Some _ => (Commit cr cmd).2 = cmd
  | None => daemon.GetRequest (daemon.Context_of (Commit cr cmd).2) = Some (Commit cr cmd).1.2
  end.
Proof.
  split.
  - destruct (CommitFlags_request AsCSV syntax_Parse environ cr cmd) as [_ ->].
    unfold daemon.setGlobalConnectFlags, readings.use_rejected, regexp.Compile.
    destruct (daemon.Flag cmd global.FlagUse) as [[? v []]|]; simpl; try done.
    by destruct (syntax_Parse (pflag.String v)) as [[code bad]|].
  - rewrite (CommitFlags_command cr cmd).
    by destruct ((Commit cr cmd).1.1).
Qed.

(** X14: a changed global [--context] flag ends up both in [KubeFlags]
    under [context] and in the context of the Kubernetes flags of the
    request, whatever the Kubernetes flag set says about a flag of that
    name; a changed [--docker] flag turns docker mode on exactly when its
    value is one of the spellings of true, any other text turning it off
    without an error. *)
Theorem CommitFlags_global_flags
    (cr : daemon.Request) (cmd : daemon.Command) (f : pflag.Flag) :
  pflag.Changed f = true ->
  (daemon.Flag cmd global.FlagContext = Some f ->
   daemon.KubeFlags (Commit cr cmd).1.2 !! "context" = Some (pflag.String (pflag.Value f)) /\
   daemon.Context (daemon.kubeConfig (Commit cr cmd).1.2) =
     Some (pflag.String (pflag.Value f))) /\
  (daemon.Flag cmd global.FlagDocker = Some f ->
   (daemon.Docker (Commit cr cmd).1.2 = true <->
    pflag.String (pflag.Value f) ∈ ["1"; "t"; "T"; "TRUE"; "true"; "True"])).
Proof.
  intros Hchanged.
  destruct (CommitFlags_fields cr cmd) as (_ & Hd & _ & Hk & _).
  split.
  - intros Hflag. rewrite CommitFlags_KubeFlags, Hk, Hflag, Hchanged.
    split; [apply lookup_insert_eq|reflexivity].
  - intros Hflag. rewrite Hd, Hflag, Hchanged. unfold strconv.ParseBool.
    repeat case_bool_decide; simpl; split; try done.
Qed.

End committing.

Lemma CommitFlags_records_changed_flag_witness :
  daemon.KubeFlags
    (daemon.CommitFlags doubles.AsCSV doubles.syntax_Parse ∅ doubles.request
       (doubles.command_use "^dev-.*$")).1.2 !! "namespace" = Some "dev".
Proof.
  apply (CommitFlags_records_changed_flag doubles.AsCSV doubles.syntax_Parse ∅
           doubles.request (doubles.command_use "^dev-.*$")
           {| pflag.Name := "namespace"; pflag.Value := doubles.string_value "dev";
              pflag.Changed := true |}).
  - simpl. apply NoDup_cons. split; [|apply NoDup_singleton].
    intros Hin. apply list_elem_of_singleton in Hin. discriminate Hin.
  - simpl. apply list_elem_of_here.
  - reflexivity.
  - intros [Hname _]. discriminate Hname.
Defined.

Lemma CommitFlags_global_flags_witness :
  daemon.KubeFlags
    (daemon.CommitFlags doubles.AsCSV doubles.syntax_Parse ∅ doubles.request
       (doubles.command_context_docker "staging" "yes")).1.2 !! "context" = Some "staging" /\
  daemon.Context
    (daemon.kubeConfig
       (daemon.CommitFlags doubles.AsCSV doubles.syntax_Parse ∅ doubles.request
          (doubles.command_context_docker "staging" "yes")).1.2) = Some "staging".
Proof.
  apply (proj1 (CommitFlags_global_flags doubles.AsCSV doubles.syntax_Parse ∅
                  doubles.request (doubles.command_context_docker "staging" "yes")
                  {| pflag.Name := global.FlagContext;
                     pflag.Value := doubles.string_value "staging";
                     pflag.Changed := true |} eq_refl)).
  vm_compute. reflexivity.
Defined.

Section requests.

Variable SafeContainerName : string -> string.
Variable AsCSV : list string -> string.
Variable syntax_Parse : string -> option (string * string).
Variable environ : gmap string string.
Variable L : kube.kubectl.
Variable json_Unmarshal : string -> result client.KubeconfigExtension.
Variable clientset : Type.
Variable ToRESTConfig : daemon.ConfigFlags -> result client.rest_Config.
Variable NewForConfig : client.rest_Config -> result clientset.
Variable Namespaces_List : clientset -> result (list daemon.Namespace_).
Variable GetStartingConfig : string -> result client.api.Config.
Variable Error_text : error -> string.
Variable range_clusters : gmap string client.api.Cluster_ -> list string.

Local Abbreviation Commit := (daemon.CommitFlags AsCSV syntax_Parse environ).

Lemma setGlobalConnectFlags_frame (cr : daemon.Request) (cmd : daemon.Command) :
  (daemon.setGlobalConnectFlags syntax_Parse cr cmd).1 =
    readings.use_rejected syntax_Parse cmd /\
  daemon.Implicit (daemon.setGlobalConnectFlags syntax_Parse cr cmd).2 = daemon.Implicit cr /\
  daemon.kubeFlagSet (daemon.setGlobalConnectFlags syntax_Parse cr cmd).2 =
    daemon.kubeFlagSet cr.
Proof.
  unfold daemon.setGlobalConnectFlags, readings.use_rejected, regexp.Compile.
  destruct (daemon.Flag cmd global.FlagContext) as [[? ? []]|];
    destruct (daemon.Flag cmd global.FlagDocker) as [[? ? []]|];
    destruct (daemon.Flag cmd global.FlagUse) as [[? v []]|]; simpl; try done;
    by destruct (syntax_Parse (pflag.String v)) as [[code bad]|].
Qed.

Lemma addKubeconfigEnv_frame (cr : daemon.Request) :
  daemon.Implicit (daemon.addKubeconfigEnv environ cr) = daemon.Implicit cr /\
  daemon.kubeFlagSet (daemon.addKubeconfigEnv environ cr) = daemon.kubeFlagSet cr /\
  size (daemon.Environment (daemon.addKubeconfigEnv environ cr)) = 2.
Proof.
  unfold daemon.addKubeconfigEnv, daemon.addEnv, daemon.os_LookupEnv.
  destruct (environ !! "KUBECONFIG"), (environ !! "GOOGLE_APPLICATION_CREDENTIALS");
    unfold daemon.Environment, daemon.set_Environment; simpl;
    (split; [done|split; [done|]]);
    rewrite !map_size_insert_None by (by simplify_map_eq);
    by rewrite map_size_empty.
Qed.

(** X15: the implicit request.  [WithDefaultRequest] fails exactly when a
    changed [--use] flag holds a rejected pattern, and then returns the
    context it was given.  Otherwise the context holds a request marked
    implicit, with an empty Kubernetes flag set, whose [KubeFlags] holds
    nothing but [namespace] and [context] entries, that has no [namespace]
    entry when the command is the list command, and whose propagation map
    holds two entries. *)
Theorem WithDefaultRequest_implicit (ctx : daemon.context) (cmd : daemon.Command) :
  let r := daemon.WithDefaultRequest syntax_Parse environ ctx cmd in
  r.1.2 = readings.use_rejected syntax_Parse cmd /\
  match r.1.2 with
  | Some _ => r.1.1 = ctx
  | None =>
      exists cr : daemon.Request,
        daemon.GetRequest r.1.1 = Some cr /\
        daemon.Implicit cr = true /\
        daemon.kubeFlagSet cr = [] /\
        (forall k, is_Some (daemon.KubeFlags cr !! k) -> k = "namespace" \/ k = "context") /\
        (daemon.cmd_Name cmd = "list" -> daemon.KubeFlags cr !! "namespace" = None) /\
        size (daemon.Environment cr) = 2
  end.
Proof.
  intros r. subst r. unfold daemon.WithDefaultRequest.
  match goal with
  | |- context [let '(cr, ns) := ?p in _] => destruct p as [crn ns] eqn:Hp
  end.
  assert (Hcrn : daemon.Implicit crn = true /\ daemon.kubeFlagSet crn = [] /\
                 (forall k, is_Some (daemon.KubeFlags crn !! k) -> k = "namespace") /\
                 (daemon.cmd_Name cmd = "list" -> daemon.KubeFlags crn = ∅)).
  { revert Hp. case_bool_decide as Hname;
      destruct (daemon.Flag cmd "namespace") as [[? ? []]|]; intros [= <- <-];
      (split; [done|split; [done|split]]);
      unfold daemon.KubeFlags, daemon.set_KubeFlag; simpl;
      try done;
      intros k [x Hk]; (destruct (decide (k = "namespace")); [done|]);
      by simplify_map_eq. }
  destruct Hcrn as (Himplicit & Hset & Hkeys & Hlist).
  destruct (setGlobalConnectFlags_frame crn cmd) as (Herr & Hi & Hf).
  pose proof (setGlobalConnectFlags_KubeFlags syntax_Parse crn cmd) as Hk.
  destruct (daemon.setGlobalConnectFlags syntax_Parse crn cmd) as [[e|] cr2];
    simpl in *; (split; [done|]); [done|].
  destruct (addKubeconfigEnv_frame cr2) as (Hi2 & Hf2 & Hsize).
  exists (daemon.addKubeconfigEnv environ cr2).
  split; [done|]. split; [congruence|]. split; [congruence|].
  rewrite addKubeconfigEnv_KubeFlags, Hk.
  split; [|split; [|done]].
  - intros k Hsome.
    destruct (daemon.Flag cmd global.FlagContext) as [[? ? []]|]; simpl in Hsome; auto.
    destruct (decide (k = "context")) as [->|Hne]; [by right|].
    unfold global.FlagContext in Hsome. rewrite lookup_insert_ne in Hsome by done. auto.
  - intros Hname. rewrite (Hlist Hname).
    destruct (daemon.Flag cmd global.FlagContext) as [[? ? []]|]; simpl;
      unfold global.FlagContext; by simplify_map_eq.
Qed.

Lemma GetAllNamespaces_loop_fills (itms : list daemon.Namespace_) (filled : list string) :
  daemon.GetAllNamespaces_loop (filled ++ replicate (length itms) "") (length filled) itms =
  filled ++ (daemon.ns_Name <$> itms).
Proof.
  revert filled. induction itms as [|itm itms IH]; intros filled; simpl.
  - done.
  - rewrite insert_app_r_alt by lia. rewrite Nat.sub_diag. simpl.
    specialize (IH (filled ++ [daemon.ns_Name itm])).
    rewrite length_app in IH. simpl in IH. rewrite Nat.add_1_r in IH.
    rewrite <- !app_assoc in IH. simpl in IH. exact IH.
Qed.

Lemma autocompleteCluster_loop_fills (names filled : list string) :
  daemon.autocompleteCluster_loop (filled ++ replicate (length names) "") (length filled)
    names = filled ++ names.
Proof.
  revert filled. induction names as [|n names IH]; intros filled; simpl.
  - done.
  - rewrite insert_app_r_alt by lia. rewrite Nat.sub_diag. simpl.
    specialize (IH (filled ++ [n])).
    rewrite length_app in IH. simpl in IH. rewrite Nat.add_1_r in IH.
    rewrite <- !app_assoc in IH. simpl in IH. exact IH.
Qed.

Local Abbreviation AllNamespaces :=
  (daemon.GetAllNamespaces AsCSV syntax_Parse environ clientset ToRESTConfig NewForConfig
     Namespaces_List Error_text).

(** X16: [GetAllNamespaces] leaves the request and the command as
    [CommitFlags] leaves them, also when the cluster cannot be reached.  Its
    result is the name of every namespace that the cluster lists, in the
    order of the listing.  Its error is the error of [CommitFlags], as it
    is, or an error classified as not concerning the daemon logs whose text
    quotes the cause without wrapping it. *)
Theorem GetAllNamespaces_names_or_classified (cr : daemon.Request) (cmd : daemon.Command) :
  let r := AllNamespaces cr cmd in
  r.1.2 = (Commit cr cmd).1.2 /\
  r.2 = (Commit cr cmd).2 /\
  match r.1.1 with
  | Ok nss =>
      (Commit cr cmd).1.1 = None /\
      exists rs cs itms,
        ToRESTConfig (daemon.kubeConfig (Commit cr cmd).1.2) = Ok rs /\
        NewForConfig rs = Ok cs /\
        Namespaces_List cs = Ok itms /\
        nss = daemon.ns_Name <$> itms
  | Err e =>
      (Commit cr cmd).1.1 = Some e \/
      ((Commit cr cmd).1.1 = None /\
       exists format cause, e = errcat.Newf NoDaemonLogs format [Error_text cause])
  end.
Proof.
  intros r. subst r. unfold daemon.GetAllNamespaces.
  destruct (Commit cr cmd) as [[[e|] cr'] cmd']; simpl.
  { repeat split; by left. }
  split; [done|]. split; [done|].
  destruct (ToRESTConfig (daemon.kubeConfig cr')) as [rs|e1] eqn:Hrs; simpl.
  2: { right. split; [done|]. by eexists _, e1. }
  destruct (NewForConfig rs) as [cs|e2] eqn:Hcs; simpl.
  2: { right. split; [done|]. by eexists _, e2. }
  destruct (Namespaces_List cs) as [itms|e3] eqn:Hitms; simpl.
  2: { right. split; [done|]. by eexists _, e3. }
  split; [done|]. exists rs, cs, itms.
  split; [done|]. split; [done|]. split; [done|].
  apply (GetAllNamespaces_loop_fills itms []).
Qed.

Local Abbreviation Config :=
  (daemon.GetConfig AsCSV syntax_Parse environ GetStartingConfig Error_text).

(** X17: when the configuration loads, the completions of the cluster
    flag are the names of its clusters, each once, in the order in which
    the map was visited, and files are not offered; when it does not load
    there is no completion and the directive is the error directive. *)
Theorem autocompleteCluster_names (cr : daemon.Request) (cmd : daemon.Command)
    (toComplete : string) :
  (forall m, range_clusters m ≡ₚ (map_to_list m).*1) ->
  let r :=
    daemon.autocompleteCluster AsCSV syntax_Parse environ GetStartingConfig Error_text
      range_clusters cr cmd toComplete in
  match (Config cr cmd).1.1 with
  | Ok config =>
      r.1.1.1 = range_clusters (client.api.Clusters config) /\
      r.1.1.1 ≡ₚ (map_to_list (client.api.Clusters config)).*1 /\
      NoDup r.1.1.1 /\
      r.1.1.2 = daemon.ShellCompDirectiveNoFileComp
  | Err _ => r.1.1.1 = [] /\ r.1.1.2 = daemon.ShellCompDirectiveError
  end.
Proof.
  intros Hrange r. subst r. unfold daemon.autocompleteCluster.
  destruct (Config cr cmd) as [[[config|e] cr'] cmd']; simpl; [|done].
  assert (Hnames :
    daemon.autocompleteCluster_loop
      (replicate (size (client.api.Clusters config)) "") 0
      (range_clusters (client.api.Clusters config)) =
    range_clusters (client.api.Clusters config)).
  { pose proof (autocompleteCluster_loop_fills
                  (range_clusters (client.api.Clusters config)) []) as Hfill.
    simpl in Hfill.
    replace (size (client.api.Clusters config))
      with (length (range_clusters (client.api.Clusters config))); [exact Hfill|].
    rewrite (Hrange (client.api.Clusters config)), length_fmap.
    by rewrite length_map_to_list. }
  rewrite Hnames. repeat split; try done.
  rewrite (Hrange (client.api.Clusters config)). apply NoDup_fst_map_to_list.
Qed.

(** X18: the identifier of a session is built from the context and the
    namespace that the kubeconfig resolves to: whenever [NewKubeconfig]
    succeeds for a flag map, [IdentifierFromFlags] is [NewIdentifier] on the
    context and the namespace of its result. *)
Theorem IdentifierFromFlags_agrees_with_NewKubeconfig
    (c : client.context) (name override : string) (flagMap : gmap string string)
    (k : client.Kubeconfig) :
  kube.NewKubeconfig L json_Unmarshal environ c flagMap override = Ok k ->
  daemon.IdentifierFromFlags SafeContainerName environ L name flagMap =
  daemon.NewIdentifier SafeContainerName name (client.Context k) (client.Namespace k).
Proof.
  unfold kube.NewKubeconfig, daemon.IdentifierFromFlags, kube.ConfigLoader,
    client.newKubeconfig.
  destruct (kube.ConfigFlags L environ flagMap) as [configFlags|e]; simpl; [|done].
  destruct (client.RawConfig (client.ToRawKubeConfigLoader configFlags))
    as [config|e]; simpl; [|done].
  case_bool_decide; [done|].
  destruct (client.loader_Namespace (client.ToRawKubeConfigLoader configFlags))
    as [[ns explicit]|e]; simpl; [|done].
  destruct (client.api.Contexts config !! _) as [ctx|]; [|done].
  destruct (client.api.Clusters config !! _) as [cluster|]; [|done].
  destruct (client.loader_ClientConfig (client.ToRawKubeConfigLoader configFlags))
    as [restConfig|e]; simpl; [|done].
  destruct (client.api.Extensions cluster !! client.configExtension) as [[raw|]|]; simpl.
  - destruct (json_Unmarshal raw) as [ext|e]; simpl; [|done].
    by intros [= <-].
  - by intros [= <-].
  - by intros [= <-].
Qed.

End requests.

Lemma WithDefaultRequest_implicit_witness :
  exists cr : daemon.Request,
    daemon.GetRequest
      (daemon.WithDefaultRequest doubles.syntax_Parse ∅ doubles.no_context
         doubles.command_list_namespace).1.1 = Some cr /\
    daemon.KubeFlags cr !! "namespace" = None.
Proof.
  pose proof (WithDefaultRequest_implicit doubles.syntax_Parse ∅ doubles.no_context
                doubles.command_list_namespace) as H.
  cbv zeta in H. destruct H as [_ H].
  assert (Hnone : (daemon.WithDefaultRequest doubles.syntax_Parse ∅ doubles.no_context
                     doubles.command_list_namespace).1.2 = None)
    by (vm_compute; reflexivity).
  rewrite Hnone in H. destruct H as (cr & Hget & _ & _ & _ & Hlist & _).
  exists cr. split; [exact Hget|]. apply Hlist. reflexivity.
Defined.

Lemma autocompleteCluster_names_witness :
  (daemon.autocompleteCluster doubles.AsCSV doubles.syntax_Parse ∅
     doubles.GetStartingConfig doubles.Error_text doubles.range_clusters
     doubles.request (doubles.command_use "^dev-.*$") "").1.1.1 = ["dev-cluster"].
Proof.
  pose proof (autocompleteCluster_names doubles.AsCSV doubles.syntax_Parse ∅
                doubles.GetStartingConfig doubles.Error_text doubles.range_clusters
                doubles.request (doubles.command_use "^dev-.*$") ""
                (fun m => reflexivity _)) as H.
  cbv zeta in H.
  assert (Hconfig : (daemon.GetConfig doubles.AsCSV doubles.syntax_Parse ∅
                       doubles.GetStartingConfig doubles.Error_text doubles.request
                       (doubles.command_use "^dev-.*$")).1.1 = Ok doubles.config_z)
    by (vm_compute; reflexivity).
  rewrite Hconfig in H. destruct H as (Hnames & _).
  rewrite Hnames. vm_compute. reflexivity.
Defined.

Lemma IdentifierFromFlags_agrees_with_NewKubeconfig_witness :
  daemon.IdentifierFromFlags doubles.SafeContainerName ∅ doubles.kubectl "" ∅ =
  Ok {| daemon.Name := "dev-default"; daemon.KubeContext := "dev";
        daemon.Namespace := "default" |}.
Proof.
  rewrite (IdentifierFromFlags_agrees_with_NewKubeconfig doubles.SafeContainerName ∅
             doubles.kubectl doubles.json_Unmarshal doubles.context_env_y "" "" ∅
             doubles.kubeconfig_z).
  - reflexivity.
  - vm_compute. reflexivity.
Defined.

(** ** The kubeconfig and its extension, continued *)

(** X19: converting local DNS mappings to RPC messages and back gives
    the mappings themselves. *)
Theorem FromRPC_ToRPC_identity (d : list client.DNSMapping) :
  exists l : list (option rpc.DNSMapping),
    client.ToRPC (Some <$> d) = Some l /\
    client.FromRPC l = Some (Some <$> d).
Proof.
  exists (Some <$> (readings.to_rpc <$> d)). split.
  - unfold client.ToRPC. by rewrite ToRPC_loop_allocated.
  - unfold client.FromRPC. rewrite FromRPC_loop_allocated. simpl. f_equal. f_equal.
    rewrite <- list_fmap_compose. rewrite <- (list_fmap_id d) at 2.
    apply list_fmap_ext. by intros i [].
Qed.

Lemma FromRPC_loop_nil (l : list (option rpc.DNSMapping)) (d : list (option client.DNSMapping)) :
  client.FromRPC_loop d l = None <-> None ∈ l.
Proof.
  revert d. induction l as [|[m|] l IH]; intros d; simpl.
  - split; [done|]. intros Hin. by apply elem_of_nil in Hin.
  - rewrite IH. split; [by right|].
    intros Hin. apply elem_of_cons in Hin as [Hin|Hin]; [done|exact Hin].
  - split; [by left|done].
Qed.

Lemma ToRPC_loop_nil (d : list (option client.DNSMapping)) (l : list (option rpc.DNSMapping)) :
  client.ToRPC_loop l d = None <-> None ∈ d.
Proof.
  revert l. induction d as [|[m|] d IH]; intros l; simpl.
  - split; [done|]. intros Hin. by apply elem_of_nil in Hin.
  - rewrite IH. split; [by right|].
    intros Hin. apply elem_of_cons in Hin as [Hin|Hin]; [done|exact Hin].
  - split; [by left|done].
Qed.

(** X20: [FromRPC] and [ToRPC] panic exactly on a slice that holds a nil
    element. *)
Theorem FromRPC_ToRPC_panic_on_nil
    (l : list (option rpc.DNSMapping)) (d : list (option client.DNSMapping)) :
  (client.FromRPC l = None <-> None ∈ l) /\ (client.ToRPC d = None <-> None ∈ d).
Proof.
  split; [apply FromRPC_loop_nil|apply ToRPC_loop_nil].
Qed.

Lemma FromRPC_ToRPC_panic_on_nil_witness :
  client.FromRPC
    [Some {| rpc.Name := "db"; rpc.AliasFor := "db.prod"; rpc.unknownFields := [] |}; None]
  = None.
Proof.
  apply (proj1 (FromRPC_ToRPC_panic_on_nil
                  [Some {| rpc.Name := "db"; rpc.AliasFor := "db.prod";
                           rpc.unknownFields := [] |}; None] [])).
  right. left.
Defined.

Section merging.

Variable yaml_Unmarshal : string -> result client.remote_config.

Local Abbreviation AddRemote := (client.AddRemoteKubeConfigExtension yaml_Unmarshal).

(** X21: a payload that does not parse leaves the configuration as it
    was, and the error returned wraps the error of the parser.  A payload
    that parses is merged without error; the configuration then has a DNS
    section, and its manager, namespace, context, server, flag map, flags
    and rest configuration are those it had. *)
Theorem AddRemoteKubeConfigExtension_frame (kf : client.Kubeconfig) (cfgYaml : string) :
  match yaml_Unmarshal cfgYaml with
  | Err cause =>
      (AddRemote kf cfgYaml).2 = kf /\
      exists e, (AddRemote kf cfgYaml).1 = Some e /\ errors.Unwrap e = Some cause
  | Ok _ =>
      (AddRemote kf cfgYaml).1 = None /\
      is_Some (client.DNS (client.Extension (AddRemote kf cfgYaml).2)) /\
      client.Manager (client.Extension (AddRemote kf cfgYaml).2) =
        client.Manager (client.Extension kf) /\
      client.Namespace (AddRemote kf cfgYaml).2 = client.Namespace kf /\
      client.Context (AddRemote kf cfgYaml).2 = client.Context kf /\
      client.Server (AddRemote kf cfgYaml).2 = client.Server kf /\
      client.FlagMap (AddRemote kf cfgYaml).2 = client.FlagMap kf /\
      client.ConfigFlags (AddRemote kf cfgYaml).2 = client.ConfigFlags kf /\
      client.RestConfig (AddRemote kf cfgYaml).2 = client.RestConfig kf
  end.
Proof.
  unfold client.AddRemoteKubeConfigExtension.
  destruct (yaml_Unmarshal cfgYaml) as [[rdns rrouting]|cause]; simpl.
  - destruct rrouting; simpl; repeat split; eauto.
  - split; [done|]. by eexists.
Qed.

(** The configuration after merging the payloads of [ys] one after the
    other. *)
Local Abbreviation merge_all kf ys :=
  (foldl (fun kf cfgYaml => (AddRemote kf cfgYaml).2) kf ys).

(** X22: through any sequence of merges, a scalar of the DNS section that
    is set keeps its value, and what a list field held at the start stays
    at its front, in place and order. *)
Theorem merges_keep_local_settings (kf : client.Kubeconfig) (ys : list string) :
  let d0 := readings.local_DNS kf in
  let d := readings.local_DNS (merge_all kf ys) in
  (client.LocalIP d0 ≠ "" -> client.LocalIP d = client.LocalIP d0) /\
  (client.RemoteIP d0 ≠ "" -> client.RemoteIP d = client.RemoteIP d0) /\
  (client.LookupTimeout d0 ≠ 0%Z -> client.LookupTimeout d = client.LookupTimeout d0) /\
  client.ExcludeSuffixes d0 `prefix_of` client.ExcludeSuffixes d /\
  client.IncludeSuffixes d0 `prefix_of` client.IncludeSuffixes d /\
  client.Excludes d0 `prefix_of` client.Excludes d /\
  client.Mappings d0 `prefix_of` client.Mappings d /\
  client.AlsoProxy (client.Extension kf) `prefix_of`
    client.AlsoProxy (client.Extension (merge_all kf ys)) /\
  client.NeverProxy (client.Extension kf) `prefix_of`
    client.NeverProxy (client.Extension (merge_all kf ys)).
Proof.
  revert kf. induction ys as [|y ys IH]; intros kf; simpl.
  { repeat split; done. }
  destruct (merge_once yaml_Unmarshal kf y)
    as (Hl & Hr & Ht & Hes & His & Hex & Hm & Hap & Hnp).
  destruct (IH (AddRemote kf y).2) as (Il & Ir & It & Ies & Iis & Iex & Im & Iap & Inp).
  repeat split.
  - intros Hset. rewrite Il; rewrite Hl; by rewrite bool_decide_eq_false_2.
  - intros Hset. rewrite Ir; rewrite Hr; by rewrite bool_decide_eq_false_2.
  - intros Hset. rewrite It; rewrite Ht; by rewrite bool_decide_eq_false_2.
  - etrans; [|exact Ies]. rewrite Hes. by apply prefix_app_r.
  - etrans; [|exact Iis]. rewrite His. by apply prefix_app_r.
  - etrans; [|exact Iex]. rewrite Hex. by apply prefix_app_r.
  - etrans; [|exact Im]. rewrite Hm. by apply prefix_app_r.
  - etrans; [|exact Iap]. rewrite Hap. by apply prefix_app_r.
  - etrans; [|exact Inp]. rewrite Hnp. by apply prefix_app_r.
Qed.

End merging.

Lemma merges_keep_local_settings_witness :
  client.LocalIP
    (readings.local_DNS
       (foldl (fun kf cfgYaml =>
                 (client.AddRemoteKubeConfigExtension doubles.yaml_Unmarshal kf cfgYaml).2)
          (doubles.kubeconfig_with (Some doubles.dns_local_set))
          [doubles.payload_text; "not yaml"; doubles.payload_text])) =
  doubles.ipv4 127 0 0 53.
Proof.
  apply (proj1 (merges_keep_local_settings doubles.yaml_Unmarshal
                  (doubles.kubeconfig_with (Some doubles.dns_local_set))
                  [doubles.payload_text; "not yaml"; doubles.payload_text])).
  vm_compute. discriminate.
Defined.

(** X23: [ContextServiceAndFlagsEqual] is symmetric and transitive; it
    holds of a configuration and itself, but never of nil, not even of nil
    and nil; and it holds of any two configurations with the same context,
    server and flag map, whatever their namespace and extension. *)
Theorem ContextServiceAndFlagsEqual_partial_equivalence
    (a b c : option client.Kubeconfig) :
  kube.ContextServiceAndFlagsEqual a b = kube.ContextServiceAndFlagsEqual b a /\
  (kube.ContextServiceAndFlagsEqual a b = true ->
   kube.ContextServiceAndFlagsEqual b c = true ->
   kube.ContextServiceAndFlagsEqual a c = true) /\
  (kube.ContextServiceAndFlagsEqual a a = true <-> is_Some a) /\
  kube.ContextServiceAndFlagsEqual None b = false /\
  (forall kf okf : client.Kubeconfig,
     client.Context kf = client.Context okf ->
     client.Server kf = client.Server okf ->
     client.FlagMap kf = client.FlagMap okf ->
     kube.ContextServiceAndFlagsEqual (Some kf) (Some okf) = true).
Proof.
  unfold kube.ContextServiceAndFlagsEqual.
  split; [|split; [|split; [|split]]].
  - destruct a as [kf|], b as [okf|]; try done.
    f_equal; [f_equal|]; apply bool_decide_ext; split; congruence.
  - destruct a as [kf|], b as [okf|], c as [ckf|]; try done.
    rewrite !andb_true_iff, !bool_decide_eq_true.
    intros [[? ?] ?] [[? ?] ?]. repeat split; congruence.
  - destruct a as [kf|]; simpl.
    + rewrite !bool_decide_eq_true_2 by done. split; eauto.
    + split; [done|]. by intros [? ?].
  - done.
  - intros kf okf Hc Hs Hf. by rewrite !bool_decide_eq_true_2.
Qed.

Lemma ContextServiceAndFlagsEqual_partial_equivalence_witness :
  kube.ContextServiceAndFlagsEqual (Some doubles.kubeconfig_z)
    (Some (doubles.kubeconfig_with None)) = true.
Proof.
  apply (proj2 (proj2 (proj2 (proj2
           (ContextServiceAndFlagsEqual_partial_equivalence None None None))))).
  - reflexivity.
  - reflexivity.
  - reflexivity.
Defined.

(** ** Loading the kubeconfig *)

Section loading.

Variable L : kube.kubectl.
Variable json_Unmarshal : string -> result client.KubeconfigExtension.

(** X24: when [newKubeconfig] fails, its error is the error of one of the
    three calls on the loader, as it is, or an error that [newKubeconfig]
    made itself, and such an error is classified as a configuration error:
    a kubeconfig without contexts, a missing context, a missing cluster, or
    an extension that does not parse. *)
Theorem newKubeconfig_failure_classified
    (c : client.context) (flagMap : gmap string string) (override : string)
    (configFlags : client.ConfigFlags_) (e : error) :
  client.newKubeconfig json_Unmarshal c flagMap override configFlags = Err e ->
  let loader := client.ToRawKubeConfigLoader configFlags in
  client.RawConfig loader = Err e \/
  client.loader_Namespace loader = Err e \/
  client.loader_ClientConfig loader = Err e \/
  errcat.GetCategory e = Some Config.
Proof.
  intros Hfail. cbv zeta. revert Hfail. unfold client.newKubeconfig.
  destruct (client.RawConfig (client.ToRawKubeConfigLoader configFlags))
    as [config|e0]; simpl; [|intros [= <-]; by left].
  case_bool_decide; [intros [= <-]; by right; right; right|].
  destruct (client.loader_Namespace (client.ToRawKubeConfigLoader configFlags))
    as [ns|e0]; simpl; [|intros [= <-]; by right; left].
  destruct (client.api.Contexts config !! _) as [ctx|];
    [|intros [= <-]; by right; right; right].
  destruct (client.api.Clusters config !! _) as [cluster|];
    [|intros [= <-]; by right; right; right].
  destruct (client.loader_ClientConfig (client.ToRawKubeConfigLoader configFlags))
    as [restConfig|e0]; simpl; [|intros [= <-]; by right; right; left].
  destruct (client.api.Extensions cluster !! client.configExtension) as [[raw|]|];
    simpl; try done.
  destruct (json_Unmarshal raw) as [ext|e0]; simpl; [done|].
  intros [= <-]. by right; right; right.
Qed.

(** X25: a configuration that [newKubeconfig] returns has a manager
    section, so that reading its manager namespace does not dereference
    nil; an explicit override that is not empty is that namespace; the
    namespace is empty only when the global default is; the context of the
    configuration is defined in the kubeconfig, it is the one of the flag
    map when the flag map names one, and its cluster is defined and gives
    the server. *)
Theorem newKubeconfig_result_invariants
    (c : client.context) (flagMap : gmap string string) (override : string)
    (configFlags : client.ConfigFlags_) (k : client.Kubeconfig) :
  client.newKubeconfig json_Unmarshal c flagMap override configFlags = Ok k ->
  (exists ns : string,
     client.GetManagerNamespace k = Some ns /\
     (override ≠ "" -> ns = override) /\
     (ns = "" -> client.DefaultManagerNamespace (client.GetConfig_Cluster c) = "")) /\
  client.FlagMap k = flagMap /\
  (client.index flagMap "context" ≠ "" -> client.Context k = client.index flagMap "context") /\
  exists (config : client.api.Config) (ctx : client.api.Context)
         (cluster : client.api.Cluster_),
    client.RawConfig (client.ToRawKubeConfigLoader configFlags) = Ok config /\
    client.api.Contexts config !! client.Context k = Some ctx /\
    client.api.Clusters config !! client.api.Cluster ctx = Some cluster /\
    client.Server k = client.api.Server cluster.
Proof.
  unfold client.newKubeconfig.
  destruct (client.RawConfig (client.ToRawKubeConfigLoader configFlags))
    as [config|e0]; simpl; [|done].
  case_bool_decide; [done|].
  destruct (client.loader_Namespace (client.ToRawKubeConfigLoader configFlags))
    as [ns|e0]; simpl; [|done].
  destruct (client.api.Contexts config !! _) as [ctx|] eqn:Hctx; [|done].
  destruct (client.api.Clusters config !! _) as [cluster|] eqn:Hcluster; [|done].
  destruct (client.loader_ClientConfig (client.ToRawKubeConfigLoader configFlags))
    as [restConfig|e0]; simpl; [|done].
  assert (Hmanager : forall m : client.ManagerConfig,
    let m1 := if bool_decide (override ≠ "")
              then {| client.mc_Namespace := override |} else m in
    let m2 := if bool_decide (client.mc_Namespace m1 = "")
              then {| client.mc_Namespace := client.ManagerNamespace (client.GetEnv c) |}
              else m1 in
    let m3 := if bool_decide (client.mc_Namespace m2 = "")
              then {| client.mc_Namespace :=
                        client.DefaultManagerNamespace (client.GetConfig_Cluster c) |}
              else m2 in
    (override ≠ "" -> client.mc_Namespace m3 = override) /\
    (client.mc_Namespace m3 = "" ->
     client.DefaultManagerNamespace (client.GetConfig_Cluster c) = "")).
  { intros m m1 m2 m3. subst m1 m2 m3.
    repeat (case_bool_decide; simpl in * ); split; try done; congruence. }
  assert (Hcontext :
    client.index flagMap "context" ≠ "" ->
    (if bool_decide (client.index flagMap "context" = "")
     then client.api.CurrentContext config else client.index flagMap "context") =
    client.index flagMap "context").
  { intros Hne. by rewrite bool_decide_eq_false_2. }
  destruct (client.api.Extensions cluster !! client.configExtension) as [[raw|]|]; simpl.
  - destruct (json_Unmarshal raw) as [ext|e0]; simpl; [|done].
    intros [= <-]; simpl.
    split; [|split; [done|split; [exact Hcontext|by exists config, ctx, cluster]]].
    unfold client.GetManagerNamespace; simpl. eexists. split; [reflexivity|].
    apply Hmanager.
  - intros [= <-]; simpl.
    split; [|split; [done|split; [exact Hcontext|by exists config, ctx, cluster]]].
    unfold client.GetManagerNamespace; simpl. eexists. split; [reflexivity|].
    apply (Hmanager {| client.mc_Namespace := "" |}).
  - intros [= <-]; simpl.
    split; [|split; [done|split; [exact Hcontext|by exists config, ctx, cluster]]].
    unfold client.GetManagerNamespace; simpl. eexists. split; [reflexivity|].
    apply (Hmanager {| client.mc_Namespace := "" |}).
Qed.

(** X26: [CurrentContext] and [NewKubeconfig] agree: when [NewKubeconfig]
    resolves a flag map, [CurrentContext] returns the context name and the
    namespace of its result, with the context itself.  [CurrentContext]
    does not check that the context is defined: when it returns a nil
    context, [NewKubeconfig] fails with a configuration error. *)
Theorem CurrentContext_agrees_with_NewKubeconfig
    (environ : gmap string string) (c : client.context)
    (flagMap : gmap string string) (override : string) :
  (forall k : client.Kubeconfig,
     kube.NewKubeconfig L json_Unmarshal environ c flagMap override = Ok k ->
     exists ctx : client.api.Context,
       kube.CurrentContext L environ flagMap =
         Ok (client.Context k, client.Namespace k, Some ctx)) /\
  (forall cc ns : string,
     kube.CurrentContext L environ flagMap = Ok (cc, ns, None) ->
     exists e : error,
       kube.NewKubeconfig L json_Unmarshal environ c flagMap override = Err e /\
       errcat.GetCategory e = Some Config).
Proof.
  unfold kube.NewKubeconfig, kube.CurrentContext, kube.ConfigLoader, client.newKubeconfig.
  destruct (kube.ConfigFlags L environ flagMap) as [configFlags|e]; simpl; [|done].
  destruct (client.loader_Namespace (client.ToRawKubeConfigLoader configFlags))
    as [[ns explicit]|e]; simpl.
  2: { split; [|done]. intros k.
       destruct (client.RawConfig _) as [config|e0]; simpl; [|done].
       by case_bool_decide. }
  destruct (client.RawConfig (client.ToRawKubeConfigLoader configFlags))
    as [config|e]; simpl; [|done].
  case_bool_decide; [done|].
  destruct (client.api.Contexts config !! _) as [ctx|] eqn:Hctx.
  - split; [|done]. intros k.
    destruct (client.api.Clusters config !! _) as [cluster|]; [|done].
    destruct (client.loader_ClientConfig _) as [restConfig|e]; simpl; [|done].
    destruct (client.api.Extensions cluster !! client.configExtension) as [[raw|]|]; simpl.
    + destruct (json_Unmarshal raw) as [ext|e]; simpl; [|done].
      intros [= <-]; simpl. by exists ctx.
    + intros [= <-]; simpl. by exists ctx.
    + intros [= <-]; simpl. by exists ctx.
  - split; [done|]. intros cc ns' _. by eexists.
Qed.

Lemma ConfigFlags_loop_unknown (entries : list (string * string)) (flags : kube.flag_values L) :
  (forall kv, kv ∈ entries -> kube.flags_Lookup L kv.1 = None) ->
  kube.ConfigFlags_loop L entries flags = Ok flags.
Proof.
  induction entries as [|[k v] entries IH]; intros Hunknown; simpl; [done|].
  pose proof (Hunknown (k, v) (list_elem_of_here _ _)) as Hk. simpl in Hk. rewrite Hk.
  apply IH. intros kv Hkv. apply Hunknown. by right.
Qed.

Lemma ConfigFlags_loop_error (entries : list (string * string)) (flags : kube.flag_values L)
    (e : error) :
  kube.ConfigFlags_loop L entries flags = Err e ->
  exists k v cause,
    (k, v) ∈ entries /\ is_Some (kube.flags_Lookup L k) /\
    e = errcat.Newf_w User "error processing kubectl flag --%s=%s: %w" [k; v] cause.
Proof.
  revert flags. induction entries as [|[k v] entries IH]; intros flags; simpl; [done|].
  destruct (kube.flags_Lookup L k) as [is_slice|] eqn:Hknown.
  - match goal with
    | |- context [match ?assigned with Ok _ => _ | Err _ => _ end] =>
        destruct assigned as [flags'|cause] eqn:Hassigned
    end.
    + intros Hrest. destruct (IH _ Hrest) as (k' & v' & cause & Hin & Hk & He).
      exists k', v', cause. split; [by right|done].
    + intros [= <-]. exists k, v, cause.
      split; [by left|]. split; [by rewrite Hknown|done].
  - intros Hrest. destruct (IH _ Hrest) as (k' & v' & cause & Hin & Hk & He).
    exists k', v', cause. split; [by right|done].
Qed.

(** X27: [ConfigFlags] skips the keys of the flag map that name no flag:
    a flag map made of such keys gives the flags that the empty flag map
    gives.  When it fails, its error is classified as a user error, names a
    known flag of the flag map with its value, and wraps what the library
    said. *)
Theorem ConfigFlags_tolerant_and_classified
    (environ : gmap string string) (flagMap : gmap string string) :
  (forall m, kube.range_order L m ≡ₚ map_to_list m) ->
  ((forall k, is_Some (flagMap !! k) -> kube.flags_Lookup L k = None) ->
   kube.ConfigFlags L environ flagMap = kube.ConfigFlags L environ ∅) /\
  (forall e, kube.ConfigFlags L environ flagMap = Err e ->
     errcat.GetCategory e = Some User /\
     exists k v cause,
       flagMap !! k = Some v /\ is_Some (kube.flags_Lookup L k) /\
       errors.Unwrap e =
         Some (fmt_Errorf_w "error processing kubectl flag --%s=%s: %w" [k; v] cause)).
Proof.
  intros Hrange. unfold kube.ConfigFlags. split.
  - intros Hunknown.
    rewrite (ConfigFlags_loop_unknown (kube.range_order L flagMap)).
    + assert (Hempty : kube.range_order L ∅ = []).
      { apply Permutation_nil_r. by rewrite (Hrange ∅), map_to_list_empty. }
      by rewrite Hempty.
    + intros [k v] Hin. apply Hunknown. exists v.
      apply elem_of_map_to_list. by rewrite <- (Hrange flagMap).
  - intros e.
    destruct (kube.ConfigFlags_loop L (kube.range_order L flagMap) (kube.NewConfigFlags L))
      as [flags|e0] eqn:Hloop; simpl; [done|].
    intros [= <-].
    destruct (ConfigFlags_loop_error _ _ _ Hloop) as (k & v & cause & Hin & Hk & ->).
    split; [done|]. exists k, v, cause. split; [|done].
    apply elem_of_map_to_list. by rewrite <- (Hrange flagMap).
Qed.

Lemma NewInClusterConfig_loop_strict (entries : list (string * string))
    (flags : kube.flag_values L) (k v : string) :
  (k, v) ∈ entries ->
  (forall flags', exists cause, kube.flags_Set L k v flags' = Err cause) ->
  exists e, kube.NewInClusterConfig_loop L entries flags = Err e /\
            errcat.GetCategory e = Some User.
Proof.
  intros Hin Hrejected. revert flags.
  induction entries as [|[k' v'] entries IH]; intros flags; simpl.
  { by apply elem_of_nil in Hin. }
  destruct (kube.flags_Set L k' v' flags) as [flags'|cause] eqn:Hset.
  - apply elem_of_cons in Hin as [[= <- <-]|Hin].
    + destruct (Hrejected flags) as [cause Hcause]. congruence.
    + by apply IH.
  - by eexists.
Qed.

(** X28: the in-cluster configuration takes its manager namespace from
    the environment, and from the global default when the environment
    names none; it has no context, no DNS section and no proxy lists.
    Unlike [ConfigFlags] it hands every key of the flag map to the flag set:
    a key that the flag set rejects makes it fail with a user error. *)
Theorem NewInClusterConfig_manager_and_strictness
    (environ : gmap string string) (c : client.context) (flagMap : gmap string string) :
  (forall k : client.Kubeconfig,
     kube.NewInClusterConfig L environ c flagMap = Ok k ->
     client.GetManagerNamespace k =
       Some (readings.first_nonempty [client.ManagerNamespace (client.GetEnv c)]
               (client.DefaultManagerNamespace (client.GetConfig_Cluster c))) /\
     client.Context k = "" /\
     client.FlagMap k = flagMap /\
     client.DNS (client.Extension k) = None /\
     client.AlsoProxy (client.Extension k) = [] /\
     client.NeverProxy (client.Extension k) = []) /\
  ((forall m, kube.range_order L m ≡ₚ map_to_list m) ->
   forall key v : string,
     flagMap !! key = Some v ->
     (forall flags, exists cause, kube.flags_Set L key v flags = Err cause) ->
     exists e, kube.NewInClusterConfig L environ c flagMap = Err e /\
               errcat.GetCategory e = Some User).
Proof.
  unfold kube.NewInClusterConfig. split.
  - intros k.
    destruct (kube.NewInClusterConfig_loop L _ _) as [flags|e]; simpl; [|done].
    destruct (client.loader_ClientConfig _) as [restConfig|e]; simpl; [|done].
    destruct (client.loader_Namespace _) as [ns|e]; simpl; [|done].
    intros [= <-]; simpl. unfold client.GetManagerNamespace; simpl.
    repeat split; done.
  - intros Hrange key v Hkey Hrejected.
    destruct (NewInClusterConfig_loop_strict (kube.range_order L flagMap)
                (kube.NewConfigFlags L) key v) as (e & -> & Hcat).
    + rewrite (Hrange flagMap). by apply elem_of_map_to_list.
    + exact Hrejected.
    + by exists e.
Qed.

End loading.

(** ** Replaying the environment in the daemon *)

Import Stdlib.Strings.Ascii.

Lemma Setenv_valid (key value : string) (environ : gmap string string) :
  key ≠ "" ->
  os.has_byte "="%char key = false ->
  os.has_byte Ascii.zero key = false ->
  os.has_byte Ascii.zero value = false ->
  os.Setenv key value environ = (None, <[key := value]> environ).
Proof.
  intros Hkey Heq Hzero Hvalue. unfold os.Setenv.
  by rewrite bool_decide_eq_false_2, Heq, Hzero, Hvalue.
Qed.

Lemma DaemonKubeconfig_loop_panics (entries : list (string * string))
    (environ : gmap string string) :
  kube.DaemonKubeconfig_loop entries environ = None <-> exists v, ("", v) ∈ entries.
Proof.
  revert environ. induction entries as [|[k v] entries IH]; intros environ; simpl.
  - split; [done|]. intros [v Hin]. by apply elem_of_nil in Hin.
  - destruct k as [|k0 k1].
    + split; [|done]. intros _. exists v. by left.
    + assert (Hrest : (exists v0, ("", v0) ∈ (String k0 k1, v) :: entries) <->
                      (exists v0, ("", v0) ∈ entries)).
      { split; intros [v0 Hin]; exists v0; [|by right].
        apply elem_of_cons in Hin as [[=]|Hin]; done. }
      rewrite Hrest. case_bool_decide; apply IH.
Qed.

Section replay.

Variable AsCSV : list string -> string.
Variable syntax_Parse : string -> option (string * string).
Variable L : kube.kubectl.
Variable json_Unmarshal : string -> result client.KubeconfigExtension.

(** X29: for a request that is not one of a pod daemon, [DaemonKubeconfig]
    panics exactly when the propagation map of the request has an entry
    under the empty key. *)
Theorem DaemonKubeconfig_panics_on_empty_key
    (environ : gmap string string) (c : client.context) (cr : connector.ConnectRequest) :
  (forall m, kube.range_order L m ≡ₚ map_to_list m) ->
  connector.IsPodDaemon cr = false ->
  (kube.DaemonKubeconfig L json_Unmarshal environ c cr = None <->
   is_Some (connector.Environment cr !! "")).
Proof.
  intros Hrange Hpod. unfold kube.DaemonKubeconfig. rewrite Hpod.
  destruct (kube.DaemonKubeconfig_loop _ environ) as [environ'|] eqn:Hloop; simpl.
  - split; [done|]. intros [v Hv]. exfalso.
    assert (Hnone : kube.DaemonKubeconfig_loop
                      (kube.range_order L (connector.Environment cr)) environ = None).
    { apply DaemonKubeconfig_loop_panics. exists v.
      rewrite (Hrange (connector.Environment cr)). by apply elem_of_map_to_list. }
    congruence.
  - split; [|done]. intros _.
    apply DaemonKubeconfig_loop_panics in Hloop as [v Hin].
    exists v. apply elem_of_map_to_list. by rewrite <- (Hrange (connector.Environment cr)).
Qed.

(** X30: the environment that the client captured is replayed in the
    daemon.  For the connect request of a request committed in an
    environment whose values hold no zero byte, [DaemonKubeconfig] leaves
    [KUBECONFIG] and [GOOGLE_APPLICATION_CREDENTIALS] in the environment of
    its process as they were in the environment of the client, set to the
    same value or unset, and leaves every other variable as it was. *)
Theorem DaemonKubeconfig_replays_environment
    (client_environ daemon_environ : gmap string string) (c : client.context)
    (cr : daemon.Request) (cmd : daemon.Command) :
  let req :=
    daemon.ConnectRequest
      (daemon.CommitFlags AsCSV syntax_Parse client_environ cr cmd).1.2 in
  (forall m, kube.range_order L m ≡ₚ map_to_list m) ->
  connector.IsPodDaemon (daemon.ConnectRequest cr) = false ->
  (forall k v, client_environ !! k = Some v -> os.has_byte Ascii.zero v = false) ->
  exists (r : result client.Kubeconfig) (environ' : gmap string string),
    kube.DaemonKubeconfig L json_Unmarshal daemon_environ c req = Some (r, environ') /\
    environ' !! "KUBECONFIG" = client_environ !! "KUBECONFIG" /\
    environ' !! "GOOGLE_APPLICATION_CREDENTIALS" =
      client_environ !! "GOOGLE_APPLICATION_CREDENTIALS" /\
    (forall k, k ≠ "KUBECONFIG" -> k ≠ "GOOGLE_APPLICATION_CREDENTIALS" ->
       environ' !! k = daemon_environ !! k).
Proof.
  intros req Hrange Hpod Hzero. subst req.
  destruct (CommitFlags_fields AsCSV syntax_Parse client_environ cr cmd)
    as (Henv & _ & _ & _ & _ & _ & _ & _ & _ & Hpod' & _).
  unfold kube.DaemonKubeconfig. rewrite Hpod', Hpod.
  change (connector.Environment
            (daemon.ConnectRequest
               (daemon.CommitFlags AsCSV syntax_Parse client_environ cr cmd).1.2))
    with (daemon.Environment
            (daemon.CommitFlags AsCSV syntax_Parse client_environ cr cmd).1.2).
  rewrite Henv.
  assert (Hloop : forall (a b x y : string),
    a ≠ b ->
    kube.DaemonKubeconfig_loop
      (kube.range_order L (<[b := y]> (<[a := x]> (∅ : gmap string string))))
      daemon_environ = kube.DaemonKubeconfig_loop [(a, x); (b, y)] daemon_environ \/
    kube.DaemonKubeconfig_loop
      (kube.range_order L (<[b := y]> (<[a := x]> (∅ : gmap string string))))
      daemon_environ = kube.DaemonKubeconfig_loop [(b, y); (a, x)] daemon_environ).
  { intros a b x y Hab.
    assert (Hperm : [(b, y); (a, x)] ≡ₚ
                    kube.range_order L (<[b := y]> (<[a := x]> (∅ : gmap string string)))).
    { rewrite Hrange. rewrite map_to_list_insert by (by simplify_map_eq).
      rewrite map_to_list_insert by done. by rewrite map_to_list_empty. }
    apply Permutation_length_2_inv in Hperm as [-> | ->]; [by right|by left]. }
  unfold daemon.addKubeconfigEnv, daemon.addEnv, daemon.os_LookupEnv.
  destruct (client_environ !! "KUBECONFIG") as [kc|] eqn:Hkc;
    destruct (client_environ !! "GOOGLE_APPLICATION_CREDENTIALS") as [gac|] eqn:Hgac;
    unfold daemon.Environment, daemon.set_Environment; simpl;
    match goal with
    | |- context [kube.range_order L (<[?b := ?y]> (<[?a := ?x]> ∅))] =>
        destruct (Hloop a b x y ltac:(done)) as [-> | ->]
    end;
    simpl;
    rewrite ?Setenv_valid by first [done | eauto];
    simpl; eexists _, _; (split; [reflexivity|]);
    unfold os.Unsetenv; simpl;
    (split; [|split]);
    try (intros k Hk1 Hk2);
    by simplify_map_eq.
Qed.

End replay.

(** ** Concrete runs of the loading functions *)

Lemma newKubeconfig_failure_classified_witness :
  let e := errcat.Newf Config "context %q does not exist in the kubeconfig" ["prod"] in
  client.RawConfig (client.ToRawKubeConfigLoader doubles.configFlags_z) = Err e \/
  client.loader_Namespace (client.ToRawKubeConfigLoader doubles.configFlags_z) = Err e \/
  client.loader_ClientConfig (client.ToRawKubeConfigLoader doubles.configFlags_z) = Err e \/
  errcat.GetCategory e = Some Config.
Proof.
  apply (newKubeconfig_failure_classified doubles.json_Unmarshal doubles.context_env_y
           {[ "context" := "prod" ]} "" doubles.configFlags_z).
  vm_compute. reflexivity.
Defined.

Lemma newKubeconfig_result_invariants_witness :
  exists ns : string,
    client.GetManagerNamespace
      (client.with_Extension doubles.kubeconfig_z
         (client.with_Manager (client.Extension doubles.kubeconfig_z)
            (Some {| client.mc_Namespace := "x" |}))) = Some ns /\
    ("x" ≠ "" -> ns = "x") /\
    (ns = "" ->
     client.DefaultManagerNamespace (client.GetConfig_Cluster doubles.context_env_y) = "").
Proof.
  assert (Hrun : client.newKubeconfig doubles.json_Unmarshal doubles.context_env_y ∅ "x"
                   doubles.configFlags_z =
                 Ok (client.with_Extension doubles.kubeconfig_z
                       (client.with_Manager (client.Extension doubles.kubeconfig_z)
                          (Some {| client.mc_Namespace := "x" |}))))
    by (vm_compute; reflexivity).
  exact (proj1 (newKubeconfig_result_invariants doubles.json_Unmarshal
                  doubles.context_env_y ∅ "x" doubles.configFlags_z _ Hrun)).
Defined.

Lemma CurrentContext_agrees_with_NewKubeconfig_witness :
  exists ctx : client.api.Context,
    kube.CurrentContext doubles.kubectl ∅ ∅ = Ok ("dev", "default", Some ctx).
Proof.
  apply (proj1 (CurrentContext_agrees_with_NewKubeconfig doubles.kubectl
                  doubles.json_Unmarshal ∅ doubles.context_env_y ∅ "")
           doubles.kubeconfig_z).
  vm_compute. reflexivity.
Defined.

Lemma ConfigFlags_tolerant_and_classified_witness :
  kube.ConfigFlags doubles.kubectl ∅ {[ "x-unknown" := "1" ]} =
  kube.ConfigFlags doubles.kubectl ∅ ∅.
Proof.
  apply (proj1 (ConfigFlags_tolerant_and_classified doubles.kubectl ∅
                  {[ "x-unknown" := "1" ]} (fun m => reflexivity _))).
  intros k [v Hk]. apply lookup_singleton_Some in Hk as [<- _]. reflexivity.
Defined.

Lemma NewInClusterConfig_manager_and_strictness_witness :
  exists e : error,
    kube.NewInClusterConfig doubles.kubectl ∅ doubles.context_env_y
      {[ "x-unknown" := "1" ]} = Err e /\
    errcat.GetCategory e = Some User.
Proof.
  apply (proj2 (NewInClusterConfig_manager_and_strictness doubles.kubectl ∅
                  doubles.context_env_y {[ "x-unknown" := "1" ]})
           (fun m => reflexivity _) "x-unknown" "1").
  - apply lookup_singleton_eq.
  - intros flags. eexists. reflexivity.
Defined.

Lemma DaemonKubeconfig_panics_on_empty_key_witness :
  kube.DaemonKubeconfig doubles.kubectl doubles.json_Unmarshal ∅ doubles.context_env_y
    doubles.connect_request_empty_key = None.
Proof.
  apply (proj2 (DaemonKubeconfig_panics_on_empty_key doubles.kubectl
                  doubles.json_Unmarshal ∅ doubles.context_env_y
                  doubles.connect_request_empty_key (fun m => reflexivity _) eq_refl)).
  exists "x". apply lookup_singleton_eq.
Defined.

Lemma DaemonKubeconfig_replays_environment_witness :
  exists (r : result client.Kubeconfig) (environ' : gmap string string),
    kube.DaemonKubeconfig doubles.kubectl doubles.json_Unmarshal doubles.daemon_environ
      doubles.context_env_y
      (daemon.ConnectRequest
         (daemon.CommitFlags doubles.AsCSV doubles.syntax_Parse doubles.client_environ
            doubles.request (doubles.command_use "^dev-.*$")).1.2) = Some (r, environ') /\
    environ' !! "KUBECONFIG" = Some "/a:/b" /\
    environ' !! "GOOGLE_APPLICATION_CREDENTIALS" = None /\
    environ' !! "HOME" = Some "/root".
Proof.
  destruct (DaemonKubeconfig_replays_environment doubles.AsCSV doubles.syntax_Parse
              doubles.kubectl doubles.json_Unmarshal doubles.client_environ
              doubles.daemon_environ doubles.context_env_y doubles.request
              (doubles.command_use "^dev-.*$") (fun m => reflexivity _) eq_refl)
    as (r & environ' & Hrun & Hkc & Hgac & Hrest).
  - intros k v Hk. unfold doubles.client_environ in Hk.
    apply lookup_singleton_Some in Hk as [_ <-]. reflexivity.
  - exists r, environ'. split; [exact Hrun|]. split; [exact Hkc|]. split; [exact Hgac|].
    rewrite Hrest by discriminate. reflexivity.
Defined.
